(** * ytdlp-icli.py: a shallow embedding of the interactive yt-dlp wrapper

    The Python objects the script handles are JSON values decoded by
    [json.loads], plus the [quantiphy.Quantity] objects the selectors write
    back into the format dicts.  Dicts are heap objects: the format dicts
    listed in the audio/video candidate lists are the very objects of the
    probe metadata, so a write through one is visible through the other. *)

From Stdlib Require Import QArith ZArith String Ascii DecimalString.
From stdpp Require Import base gmap strings list.

#[local] Set Warnings "-register-all".
Local Open Scope string_scope.
Local Open Scope nat_scope.

(** ** Python values *)

Definition loc := nat.

Inductive value : Type :=
| VNone                               (* None / JSON null *)
| VBool (b : bool)
| VInt (z : Z)
| VFloat (q : Q)                       (* a finite float *)
| VStr (s : string)
| VList (l : list value)
| VDict (l : loc)                     (* a dict object living in the heap *)
| VQty (q : Q) (units : string).      (* quantiphy.Quantity(q, units) *)

Abbreviation dict := (gmap string value).

(** The heap maps every object reference to the dict stored there. *)
Definition heap := loc -> dict.

Definition heap_upd (h : heap) (l : loc) (d : dict) : heap :=
  fun l' => if Nat.eqb l' l then d else h l'.

(** [d.get(k, dflt)] *)
Definition dget (d : dict) (k : string) (dflt : value) : value :=
  match d !! k with Some v => v | None => dflt end.

(** Python exceptions raised along the paths of the script. *)
Inductive exn : Type :=
| TypeError
| AttributeError
| ValueError
| KeyError (k : string)
| IndexError
| SystemExit
| EOFError
| FileNotFoundError
| PermissionError
| NotADirectoryError.

Inductive result (A : Type) : Type :=
| Ok (a : A)
| Err (e : exn).
Arguments Ok {A} a.
Arguments Err {A} e.

Global Instance result_ret : MRet result := fun A a => Ok a.
Global Instance result_bind : MBind result := fun A B f r =>
  match r with Ok a => f a | Err e => Err e end.

(** ** The Python runtime below the script

    Four pieces of the runtime are library code, not code of this
    repository: parsing a str with [float()], [str()] of floats, Quantities,
    lists and dicts, [json.loads], and [str.isdigit], whose digits are those
    of the Unicode database the interpreter ships.  The development is
    parametric in them. *)

Class PyRuntime := {
  float_of_str : string -> option Q;        (* float(s); None: ValueError *)
  str_other : value -> string;               (* str(v) for the other values *)
  json_loads : string -> option (heap * value);  (* None: JSONDecodeError *)
  str_isdigit : string -> bool               (* s.isdigit() *)
}.

(** ** str methods

    A str is held as its UTF-8 encoding (a surrogate, which [json.loads]
    makes of a lone "\ud800" escape, in its 3-byte form). *)

Definition is_cont (c : ascii) : bool :=
  let n := nat_of_ascii c in (128 <=? n) && (n <=? 191).

(** [len(s)]: the code points, that is the bytes that do not continue a
    multi-byte sequence. *)
Definition py_len (s : string) : nat :=
  length (List.filter (fun c => negb (is_cont c)) (list_ascii_of_string s)).

Fixpoint utf8_go (l : list ascii) (cur : list ascii) : list string :=
  match l with
  | [] => match cur with [] => [] | _ => [string_of_list_ascii (rev cur)] end
  | c :: r =>
      if is_cont c then utf8_go r (c :: cur)
      else match cur with
           | [] => utf8_go r [c]
           | _ => string_of_list_ascii (rev cur) :: utf8_go r [c]
           end
  end.

(** The characters of a str, each as a str of length 1. *)
Definition utf8_chars (s : string) : list string := utf8_go (list_ascii_of_string s) [].

(** The UTF-8 encodings of the characters [c] with [c.isspace()], the ones
    [str.strip()] removes: U+0009-U+000D, U+001C-U+0020, U+0085, U+00A0,
    U+1680, U+2000-U+200A, U+2028, U+2029, U+202F, U+205F and U+3000. *)
Definition py_whitespace : list (list nat) :=
  [[9]; [10]; [11]; [12]; [13]; [28]; [29]; [30]; [31]; [32];
   [194; 133]; [194; 160]; [225; 154; 128];
   [226; 128; 128]; [226; 128; 129]; [226; 128; 130]; [226; 128; 131];
   [226; 128; 132]; [226; 128; 133]; [226; 128; 134]; [226; 128; 135];
   [226; 128; 136]; [226; 128; 137]; [226; 128; 138];
   [226; 128; 168]; [226; 128; 169]; [226; 128; 175]; [226; 129; 159];
   [227; 128; 128]].

(** [w] is a prefix of the bytes [l]. *)
Fixpoint prefix_nat (w : list nat) (l : list ascii) : bool :=
  match w, l with
  | [], _ => true
  | n :: w', c :: l' => Nat.eqb n (nat_of_ascii c) && prefix_nat w' l'
  | _ :: _, [] => false
  end.

(** Drops from the front of [l] the byte sequences [pats] as long as one
    of them starts [l]; [fuel] bounds the number of steps. *)
Fixpoint strip_go (pats : list (list nat)) (fuel : nat) (l : list ascii) : list ascii :=
  match fuel with
  | O => l
  | S f =>
      match List.find (fun w => prefix_nat w l) pats with
      | Some w => strip_go pats f (skipn (length w) l)
      | None => l
      end
  end.

Definition lstrip_bytes (l : list ascii) : list ascii :=
  strip_go py_whitespace (length l) l.

(** From the back: the reversed encodings on the reversed bytes. *)
Definition rstrip_bytes (l : list ascii) : list ascii :=
  rev (strip_go (map (@rev nat) py_whitespace) (length l) (rev l)).

(** [s.strip()] *)
Definition py_strip (s : string) : string :=
  string_of_list_ascii (rstrip_bytes (lstrip_bytes (list_ascii_of_string s))).

(** The bytes [l] start with a whitespace character. *)
Definition starts_with_space (l : list ascii) : bool :=
  existsb (fun w => prefix_nat w l) py_whitespace.

(** The bytes [l] end with a whitespace character: a reversed encoding
    starts the reversed bytes. *)
Definition ends_with_space (l : list ascii) : bool :=
  existsb (fun w => prefix_nat w (rev l)) (map (@rev nat) py_whitespace).

(** ** Truthiness and iteration *)

Definition dict_nonempty (d : dict) : bool :=
  match map_to_list d with [] => false | _ => true end.

(** [bool(v)] *)
Definition py_truthy (h : heap) (v : value) : bool :=
  match v with
  | VNone => false
  | VBool b => b
  | VInt z => negb (Z.eqb z 0)
  | VFloat q => negb (Qeq_bool q 0)
  | VStr s => negb (String.eqb s "")
  | VList l => match l with [] => false | _ => true end
  | VDict l => dict_nonempty (h l)
  | VQty q _ => negb (Qeq_bool q 0)   (* Quantity is a float subclass *)
  end.

(** The items produced by [for x in v]. *)
Definition py_iter (h : heap) (v : value) : result (list value) :=
  match v with
  | VList l => Ok l
  | VStr s => Ok (map VStr (utf8_chars s))
  | VDict l => Ok (map (fun kv => VStr kv.1) (map_to_list (h l)))
  | _ => Err TypeError
  end.

(** [v != "none"] *)
Definition ne_none_str (v : value) : bool :=
  match v with VStr s => negb (String.eqb s "none") | _ => true end.

(** ** Format Classifier: lines 100-115 of request_ytdlp_metadata *)

Record classified := {
  c_audio : list loc;
  c_video : list loc;
  c_image : list loc;
  c_metadata : loc
}.

Section Classifier.
Context `{PyRuntime}.

(** The loop over [metadata.get("formats")], appending to the audio and
    video lists. *)
Fixpoint classify_formats (h : heap) (fmts : list value)
    (audio video : list loc) : result (list loc * list loc) :=
  match fmts with
  | [] => Ok (audio, video)
  | VDict l :: rest =>
      let fmt := h l in
      match dget fmt "format_id" (VStr "") with
      | VStr fid =>
          if negb (str_isdigit (py_strip fid)) then
            classify_formats h rest audio video
          else if ne_none_str (dget fmt "acodec" (VStr "none")) then
            classify_formats h rest (audio ++ [l])%list video
          else if ne_none_str (dget fmt "vcodec" (VStr "none")) then
            classify_formats h rest audio (video ++ [l])%list
          else classify_formats h rest audio video
      | _ => Err AttributeError          (* .strip() on a non-str *)
      end
  | _ :: _ => Err AttributeError         (* .get on a non-dict *)
  end.

(** The loop over [metadata.get("thumbnails")]. *)
Fixpoint classify_thumbnails (h : heap) (ts : list value) (image : list loc)
    : result (list loc) :=
  match ts with
  | [] => Ok image
  | VDict l :: rest =>
      if py_truthy h (dget (h l) "resolution" VNone)
      then classify_thumbnails h rest (image ++ [l])%list
      else classify_thumbnails h rest image
  | _ :: _ => Err AttributeError
  end.

(** [metadata] is the value returned by [json.loads(process.stdout)]. *)
Definition classify (h : heap) (metadata : value) : result classified :=
  match metadata with
  | VDict m =>
      fmts ← py_iter h (dget (h m) "formats" VNone);
      '(audio, video) ← classify_formats h fmts [] [];
      ts ← py_iter h (dget (h m) "thumbnails" VNone);
      image ← classify_thumbnails h ts [];
      mret {| c_audio := audio; c_video := video; c_image := image;
              c_metadata := m |}
  | _ => Err AttributeError
  end.

End Classifier.

Definition string_of_Z (z : Z) : string :=
  DecimalString.NilZero.string_of_int (Z.to_int z).

Section Runtime.
Context `{PyRuntime}.

(** [str(v)], also [format(v, '')]. *)
Definition py_str (v : value) : string :=
  match v with
  | VNone => "None"
  | VBool true => "True"
  | VBool false => "False"
  | VInt z => string_of_Z z
  | VStr s => s
  | _ => str_other v
  end.

(** [a / 2^k] rounded to the nearest integer, ties to even ([k > 0]). *)
Definition round_half_even (a k : Z) : Z :=
  let m := Z.shiftr a k in
  let r := (a - Z.shiftl m k)%Z in
  let half := Z.shiftl 1 (k - 1) in
  if (half <? r)%Z || ((r =? half)%Z && Z.odd m) then (m + 1)%Z else m.

(** [float(z)] of an int: [z] rounded to 53 significant bits, ties to even;
    OverflowError ([None]) when the rounded magnitude reaches 2^1024. *)
Definition int_to_float (z : Z) : option Q :=
  let a := Z.abs z in
  let k := Z.max 0 (Z.log2 a + 1 - 53) in
  let m := if (k =? 0)%Z then a else round_half_even a k in
  let v := Z.shiftl m k in
  if (v <? 2 ^ 1024)%Z then Some (inject_Z (Z.sgn z * v)) else None.

(** [float(v)]: the bare [except:] of get_quantity catches every failure. *)
Definition py_float (v : value) : option Q :=
  match v with
  | VBool b => Some (if b then 1%Q else 0%Q)
  | VInt z => int_to_float z
  | VFloat q => Some q
  | VQty q _ => Some q
  | VStr s => float_of_str s
  | _ => None
  end.

(** get_quantity, lines 68-75. *)
Definition get_quantity (number : value) (model : string) (info : option string)
    : value :=
  match py_float number with
  | Some q => VQty q model
  | None =>
      match info with
      | Some i => VStr i
      | None => VQty 0 model
      end
  end.

End Runtime.

(** ** Menu lines

    An f-string [f"id: {str(x):<5}  ..."] is kept as its literal pieces and
    its replacement fields: the value whose [str] fills the field and the
    field's width. *)

Inductive piece : Type :=
| Lit (s : string)
| Fld (v : value) (width : nat).

Abbreviation text := (list piece).

Fixpoint spaces (n : nat) : string :=
  match n with O => "" | S n => String " " (spaces n) end.

Definition render_piece `{PyRuntime} (p : piece) : string :=
  match p with
  | Lit s => s
  | Fld v w => let s := py_str v in s ++ spaces (w - py_len s)
  end.

Definition render `{PyRuntime} (t : text) : string :=
  String.concat "" (map render_piece t).

(** pick.Option(label, value) *)
Abbreviation option_t := (text * value)%type.

(** ** Effects: output, processes, menus, and the heap *)

Inductive event : Type :=
| Echo (s : string)                   (* print(s): the text handed to print *)
| Chdir (dir : string)                (* a successful os.chdir(dir) *)
| Spawn (cmd : list string)           (* a process started *)
| Prompt (s : string)                 (* the prompt input(s) writes *)
| Menu (title : string) (options : list text) (default_index : nat).

Record state := { trace : list event; hp : heap }.

Definition M (A : Type) : Type := state -> state * result A.

Global Instance M_ret : MRet M := fun A a s => (s, Ok a).
Global Instance M_bind : MBind M := fun A B f m s =>
  match m s with
  | (s', Ok a) => f a s'
  | (s', Err e) => (s', Err e)
  end.

Definition emit (e : event) : M unit :=
  fun s => ({| trace := (trace s ++ [e])%list; hp := hp s |}, Ok tt).

Definition raise {A} (e : exn) : M A := fun s => (s, Err e).

Definition lift {A} (r : result A) : M A := fun s => (s, r).

Definition get_heap : M heap := fun s => (s, Ok (hp s)).

Definition put_heap (h : heap) : M unit :=
  fun s => ({| trace := trace s; hp := h |}, Ok tt).

(** colorama *)
Definition ESC : string := String (ascii_of_nat 27) "".
Definition Fore_RED : string := ESC ++ "[31m".
Definition Fore_GREEN : string := ESC ++ "[32m".
Definition Style_DIM : string := ESC ++ "[2m".

(** print_command, lines 78-81. *)
Definition print_command (command : list string) : M unit :=
  emit (Echo (Style_DIM ++ "$ " ++ String.concat " " command)).

(** pick.pick with [multiselect=False, min_selection_count=1]: the menu is
    shown with its cursor at [default_index], and [choice] is the index of
    the option the user confirms. *)
Definition pick (title : string) (options : list option_t)
    (default_index choice : nat) : M value :=
  emit (Menu title (map fst options) default_index);;
  match nth_error options choice with
  | Some o => mret o.2
  | None => raise IndexError
  end.

(** [option.value == default] for a str default. *)
Definition value_eq_str (v : value) (d : string) : bool :=
  match v with VStr s => String.eqb s d | _ => false end.

Fixpoint find_default (options : list option_t) (d : string) (ind : nat)
    : option nat :=
  match options with
  | [] => None
  | o :: rest => if value_eq_str o.2 d then Some ind
                 else find_default rest d (S ind)
  end.

(** The [default_index] loop shared by the three selectors. *)
Definition default_index (options : list option_t) (builtin : nat)
    (default : option string) : nat :=
  match default with
  | None => builtin
  | Some d => match find_default options d 0 with
              | Some ind => ind
              | None => builtin
              end
  end.

(** ** Interactive Selector *)

Section Selectors.
Context `{PyRuntime}.

(** Lines 140-142: the writes into the audio format dict. *)
Definition audio_quantities (fmt : dict) : dict :=
  let fmt := <["filesize" := get_quantity (dget fmt "filesize" VNone) "B" (Some "N/A")]> fmt in
  let fmt := <["abr" := get_quantity (dget fmt "abr" VNone) "" (Some "N/A")]> fmt in
  <["asr" := get_quantity (dget fmt "asr" VNone) "Hz" None]> fmt.

(** Line 144. *)
Definition audio_text (fmt : dict) : text :=
  [Lit "id: "; Fld (dget fmt "format_id" (VStr "N/A")) 5;
   Lit "  codec: "; Fld (dget fmt "acodec" (VStr "N/A")) 10;
   Lit "  ext: "; Fld (dget fmt "audio_ext" (VStr "N/A")) 5;
   Lit "  lang: "; Fld (dget fmt "language" (VStr "N/A")) 3;
   Lit "  bitrate: "; Fld (dget fmt "abr" (VStr "N/A")) 7;
   Lit "  sample rate: "; Fld (dget fmt "asr" (VStr "N/A")) 10;
   Lit "  filesize: "; Fld (dget fmt "filesize" (VStr "N/A")) 10].

(** The loop of lines 139-145; each dict is written back in place. *)
Fixpoint audio_options (formats : list loc) (options : list option_t)
    : M (list option_t) :=
  match formats with
  | [] => mret options
  | l :: rest =>
      h ← get_heap;
      let fmt := audio_quantities (h l) in
      put_heap (heap_upd h l fmt);;
      audio_options rest
        (options ++ [(audio_text fmt, dget fmt "format_id" VNone)])%list
  end.

Definition audio_sentinels : list option_t :=
  [([Lit "best audio"], VStr "bestaudio"); ([Lit "no audio"], VNone)].

(** pick_yt_audio_format, lines 134-162. *)
Definition pick_yt_audio_format (formats : list loc) (default : option string)
    (choice : nat) : M value :=
  options ← audio_options formats audio_sentinels;
  pick "Select audio" options (default_index options 0 default) choice.

(** Lines 170-171. *)
Definition video_quantities (fmt : dict) : dict :=
  let fmt := <["filesize" := get_quantity (dget fmt "filesize" VNone) "B" (Some "N/A")]> fmt in
  <["vbr" := get_quantity (dget fmt "vbr" VNone) "" None]> fmt.

(** Line 172: ["{width}x{height}".format( **fmt)]. *)
Definition format_wxh (fmt : dict) : result string :=
  match fmt !! "width" with
  | None => Err (KeyError "width")
  | Some w =>
      match fmt !! "height" with
      | None => Err (KeyError "height")
      | Some ht => Ok (py_str w ++ "x" ++ py_str ht)
      end
  end.

(** Line 174. *)
Definition video_text (fmt : dict) : text :=
  [Lit "id: "; Fld (dget fmt "format_id" (VStr "N/A")) 5;
   Lit "  codec: "; Fld (dget fmt "vcodec" (VStr "N/A")) 15;
   Lit "  ext: "; Fld (dget fmt "video_ext" (VStr "N/A")) 5;
   Lit "  format: "; Fld (dget fmt "wxh" (VStr "N/A")) 10;
   Lit "  bitrate: "; Fld (dget fmt "vbr" (VStr "N/A")) 10;
   Lit "  fps: "; Fld (dget fmt "fps" (VStr "N/A")) 4;
   Lit "  filesize: "; Fld (dget fmt "filesize" (VStr "N/A")) 10].

(** The loop of lines 169-175.  The writes of lines 170-171 reach the heap
    before line 172 can raise. *)
Fixpoint video_options (formats : list loc) (options : list option_t)
    : M (list option_t) :=
  match formats with
  | [] => mret options
  | l :: rest =>
      h ← get_heap;
      let fmt := video_quantities (h l) in
      put_heap (heap_upd h l fmt);;
      wxh ← lift (format_wxh fmt);
      let fmt := <["wxh" := VStr wxh]> fmt in
      put_heap (heap_upd h l fmt);;
      video_options rest
        (options ++ [(video_text fmt, dget fmt "format_id" VNone)])%list
  end.

Definition video_sentinels : list option_t :=
  [([Lit "best video"], VStr "bestvideo"); ([Lit "no video"], VNone)].

(** pick_yt_video_format, lines 164-192. *)
Definition pick_yt_video_format (formats : list loc) (default : option string)
    (choice : nat) : M value :=
  options ← video_options formats video_sentinels;
  pick "Select video" options (default_index options 0 default) choice.

End Selectors.

Definition thumbnail_options : list option_t :=
  [([Lit "best thumbnail"], VStr "best");
   ([Lit "embed thumbnail"], VStr "embed");
   ([Lit "no thumbnail"], VNone)].

(** Lines 217-222. *)
Definition thumbnail_args (v : value) : list string :=
  if value_eq_str v "best" then ["--write-thumbnail"; "--convert-thumbnails"; "jpg"]
  else if value_eq_str v "embed" then ["--embed-thumbnail"]
  else [].

(** pick_yt_thumbnail_format, lines 194-224; its [metadata] argument is
    unused. *)
Definition pick_yt_thumbnail_format (default : option string) (choice : nat)
    : M (value * list string) :=
  v ← pick "Select thumbnail" thumbnail_options
        (default_index thumbnail_options 2 default) choice;
  mret (v, thumbnail_args v).

(** ** pathlib.PurePosixPath *)

(** The root is "", "/" or "//": POSIX keeps exactly two leading slashes
    and folds three or more into one. *)
Record path := { p_root : string; p_parts : list string }.

Definition SLASH : ascii := ascii_of_nat 47.
Definition DOT : ascii := ascii_of_nat 46.

Fixpoint split_slash (l : list ascii) (cur : list ascii) : list string :=
  match l with
  | [] => [string_of_list_ascii (rev cur)]
  | c :: r =>
      if Ascii.eqb c SLASH then string_of_list_ascii (rev cur) :: split_slash r []
      else split_slash r (c :: cur)
  end.

Definition path_root (s : string) : string :=
  match s with
  | String a r =>
      if negb (Ascii.eqb a SLASH) then ""
      else match r with
           | String b r' =>
               if negb (Ascii.eqb b SLASH) then "/"
               else match r' with
                    | String c _ => if Ascii.eqb c SLASH then "/" else "//"
                    | EmptyString => "//"
                    end
           | EmptyString => "/"
           end
  | EmptyString => ""
  end.

(** [Path(s)]: empty and "." components are dropped. *)
Definition Path (s : string) : path :=
  {| p_root := path_root s;
     p_parts := List.filter (fun x => negb (String.eqb x "") && negb (String.eqb x "."))
                  (split_slash (list_ascii_of_string s) []) |}.

(** [str(p)] *)
Definition path_str (p : path) : string :=
  if negb (String.eqb (p_root p) "") then p_root p ++ String.concat "/" (p_parts p)
  else match p_parts p with [] => "." | _ => String.concat "/" (p_parts p) end.

(** [p / name] for a name without slash. *)
Definition path_child (p : path) (name : string) : path :=
  {| p_root := p_root p; p_parts := (p_parts p ++ [name])%list |}.

(** [p.name] *)
Definition path_name (p : path) : string := default "" (last (p_parts p)).

Fixpoint rfind_go (l : list ascii) (c : ascii) (i : nat) (found : option nat)
    : option nat :=
  match l with
  | [] => found
  | x :: r => rfind_go r c (S i) (if Ascii.eqb x c then Some i else found)
  end.

(** [name.rfind(c)], [None] for -1. *)
Definition rfind (name : string) (c : ascii) : option nat :=
  rfind_go (list_ascii_of_string name) c 0 None.

(** [p.suffix] of a name. *)
Definition name_suffix (name : string) : string :=
  match rfind name DOT with
  | Some i =>
      if (0 <? i) && (i <? String.length name - 1)
      then substring i (String.length name - i) name else ""
  | None => ""
  end.

(** [p.with_suffix(suffix)] *)
Definition with_suffix (p : path) (suffix : string) : result path :=
  if existsb (Ascii.eqb SLASH) (list_ascii_of_string suffix) then Err ValueError
  else if (negb (String.eqb suffix "") && negb (String.prefix "." suffix))
          || String.eqb suffix "." then Err ValueError
  else
    let name := path_name p in
    if String.eqb name "" then Err ValueError
    else
      let old := name_suffix name in
      let name' := if String.eqb old "" then name ++ suffix
                   else substring 0 (String.length name - String.length old) name
                        ++ suffix in
      Ok {| p_root := p_root p; p_parts := (removelast (p_parts p) ++ [name'])%list |}.

(** [p.absolute()] with the working directory [cwd]: the parts of [p]
    after those of [cwd]. *)
Definition path_absolute (cwd : string) (p : path) : path :=
  if negb (String.eqb (p_root p) "") then p
  else {| p_root := p_root (Path cwd); p_parts := (p_parts (Path cwd) ++ p_parts p)%list |}.

(** ** The environment of one run

    What the outside world answers to the script: the file system, which
    binaries can be started, the lines read from standard input, the
    probe's outcome and the option confirmed in each menu. *)

Record completed := { returncode : Z; stdout : string; stderr : string }.

Record world := {
  w_home : string;                    (* str(Path.home()) *)
  w_cwd : string;                     (* os.getcwd() when main starts *)
  w_exists : string -> result bool;   (* Path(p).exists() of an absolute p;
                                         Err: the OSError it lets through *)
  w_chdir : string -> result string;  (* os.chdir(p): Ok with os.getcwd()
                                         afterwards, or the OSError raised *)
  w_launch : string -> option exn;    (* starting the binary: None, or the
                                         OSError sp.run and sp.Popen raise *)
  w_stdin : list string;              (* the lines input() returns, in order *)
  w_probe : completed;                (* the outcome of [yt-dlp -j url] *)
  w_audio_choice : nat;
  w_video_choice : nat;
  w_thumb_choice : nat
}.

(** The binary starts. *)
Definition w_found (w : world) (b : string) : bool :=
  match w_launch w b with None => true | Some _ => false end.

(** CONFIG, lines 58-65. *)
Definition ffmpeg_bin : string := "ffmpeg".
Definition ytdlp_bin : string := "yt-dlp".
Definition config_audio_format : option string := Some "best".
Definition config_video_format : option string := Some "best".
Definition config_thumbnail_format : option string := None.
Definition output_dirpath (w : world) : path := path_child (Path (w_home w)) "Downloads".

(** A str holding the character NUL. *)
Definition has_nul (s : string) : bool :=
  existsb (fun c => Nat.eqb (nat_of_ascii c) 0) (list_ascii_of_string s).

(** run_command, lines 83-87: [sp.run] raises ValueError ("embedded null
    byte") for an argument holding NUL, before the binary is looked up, and
    otherwise the OSError of starting the binary. *)
Definition run_command (w : world) (command : list string) : M unit :=
  print_command command;;
  if existsb has_nul command then raise ValueError
  else match w_launch w (hd "" command) with
       | None => emit (Spawn command)
       | Some e => raise e
       end.

(** ytdlp_download, lines 117-122; the exit status is not inspected.  The
    one call, in main, passes the URL that request_ytdlp_metadata has
    already handed to [sp.run], which rejects a NUL, and format ids whose
    stripped form is all digits; so the ValueError of [sp.Popen] for a NUL
    argument cannot arise there and is not modelled. *)
Definition ytdlp_download (w : world) (yturl fmt : string)
    (ytdlp_args : list string) : M unit :=
  let command := ([ytdlp_bin; "-f"; fmt; yturl] ++ ytdlp_args)%list in
  print_command command;;
  match w_launch w ytdlp_bin with
  | None => emit (Spawn command)
  | Some e => raise e
  end.

(** check_dependency_path, lines 227-234: only FileNotFoundError is
    caught. *)
Definition check_dependency_path (w : world) (expected_path error_message : string)
    : M bool :=
  fun s =>
    match run_command w [expected_path] s with
    | (s', Ok _) => (s', Ok true)
    | (s', Err FileNotFoundError) => (emit (Echo error_message);; mret false) s'
    | (s', Err e) => (s', Err e)
    end.

(** [input(prompt)], the [k]-th call of the run: the prompt is written,
    then a line is read; EOFError at the end of the input. *)
Definition py_input (w : world) (k : nat) (prompt : string) : M string :=
  emit (Prompt prompt);;
  match nth_error (w_stdin w) k with
  | Some line => mret line
  | None => raise EOFError
  end.

Section Workflow.
Context `{PyRuntime}.

(** ** Metadata Fetcher: request_ytdlp_metadata, lines 90-115 *)
Definition request_ytdlp_metadata (w : world) (yturl : string) : M classified :=
  run_command w [ytdlp_bin; "-j"; yturl];;
  let process := w_probe w in
  if negb (Z.eqb (returncode process) 0) then
    emit (Echo (Fore_RED ++ "Critical error:"));;
    emit (Echo (stderr process));;
    raise SystemExit                               (* exit() *)
  else
    match json_loads (stdout process) with
    | None => raise ValueError                     (* json.JSONDecodeError *)
    | Some (h, metadata) =>
        put_heap h;;
        lift (classify h metadata)
    end.

(** ** Invocation Builder: lines 264-275 of main *)

(** [audio_format and not video_format], as tested by [if audio_only:]. *)
Definition audio_only (h : heap) (audio_format video_format : value) : bool :=
  py_truthy h audio_format && negb (py_truthy h video_format).

Fixpoint str_items (items : list value) : result (list string) :=
  match items with
  | [] => Ok []
  | VStr s :: rest => r ← str_items rest; mret (s :: r)
  | _ :: _ => Err TypeError
  end.

(** [sep.join(items)] *)
Definition py_join (sep : string) (items : list value) : result string :=
  ss ← str_items items; mret (String.concat sep ss).

(** [filter(bool, [audio_format, video_format])] joined with "+". *)
Definition format_expr (h : heap) (audio_format video_format : value)
    : result string :=
  py_join "+" (List.filter (py_truthy h) [audio_format; video_format]).

Definition download_stage (w : world) (yturl : string)
    (audio_format video_format : value) (thumbnail_format : value * list string)
    (filepath : path) : M path :=
  h ← get_heap;
  let ytdlp_args := thumbnail_format.2 in
  '(ytdlp_args, filepath) ←
    (if audio_only h audio_format video_format then
       fp ← lift (with_suffix filepath ".mp3");
       mret ((ytdlp_args ++ ["-x"; "--audio-format"; "mp3"])%list, fp)
     else
       fp ← lift (with_suffix filepath ".mp4");
       mret ((ytdlp_args ++ ["--merge-output-format"; "mp4"])%list, fp));
  fmt ← lift (format_expr h audio_format video_format);
  ytdlp_download w yturl fmt ytdlp_args;;
  mret filepath.

(** [metadata.get("metadata").get("filename")] *)
Definition probe_filename (h : heap) (metadata : classified) : value :=
  dget (h (c_metadata metadata)) "filename" VNone.

(** [Path(filename)] *)
Definition py_Path (v : value) : result path :=
  match v with VStr s => Ok (Path s) | _ => Err TypeError end.

(** ** main, lines 237-288 *)
Definition main (w : world) : M unit :=
  let outdir := path_absolute (w_cwd w) (output_dirpath w) in
  ex ← lift (w_exists w (path_str outdir));
  if negb ex then
    emit (Echo (Fore_RED ++ "output directory not found: [edit line 64 to change it]"));;
    emit (Echo (path_str outdir))
  else
    print_command ["cd"; path_str outdir];;
    cwd ← lift (w_chdir w (path_str outdir));
    emit (Chdir (path_str outdir));;
    ok ← check_dependency_path w ffmpeg_bin "ffmpeg not found";
    if negb ok then mret tt else
    ok ← check_dependency_path w ytdlp_bin "yt-dlp not found";
    if negb ok then mret tt else
    input_url ← py_input w 0 "YouTube URL: ";
    let yturl := py_strip input_url in
    metadata ← request_ytdlp_metadata w yturl;
    h ← get_heap;
    filepath ← lift (py_Path (probe_filename h metadata));
    audio_format ← pick_yt_audio_format (c_audio metadata) config_audio_format
                     (w_audio_choice w);
    video_format ← pick_yt_video_format (c_video metadata) config_video_format
                     (w_video_choice w);
    thumbnail_format ← pick_yt_thumbnail_format config_thumbnail_format
                         (w_thumb_choice w);
    filepath ← download_stage w yturl audio_format video_format thumbnail_format
                 filepath;
    ex ← lift (w_exists w (path_str (path_absolute cwd filepath)));
    if negb ex then
      emit (Echo (Fore_RED ++ "downloaded file not found, expected it here:"));;
      emit (Echo (path_str filepath))
    else
      (match thumbnail_format.1 with
       | VNone => mret tt
       | _ =>
           jpg ← lift (with_suffix filepath ".jpg");
           emit (Echo (Fore_GREEN ++ "thumbnail stored here:" ++ String (ascii_of_nat 10) " "
                        ++ path_str (path_absolute cwd jpg)))
       end);;
      emit (Echo (Fore_GREEN ++ "download stored here:" ++ String (ascii_of_nat 10) " "
                   ++ path_str (path_absolute cwd filepath)));;
      _ ← py_input w 1 ("press ENTER to exit" ++ String (ascii_of_nat 10) "");
      mret tt.

End Workflow.

(** ** A concrete run

    The probe of the end-to-end scenario of the spec: [filename] "clip.webm",
    one audio format "140" and one video format "137". *)

(** The objects decoded from a probe: the metadata dict at 0, then the
    format dicts, then the thumbnail dicts. *)
Definition probe_heap (filename : string) (fmts thumbs : list dict) : heap :=
  fun l => match l with
           | 0 => <["filename" := VStr filename]>
                  (<["formats" := VList (map VDict (seq 1 (length fmts)))]>
                  (<["thumbnails" := VList (map VDict (seq (1 + length fmts) (length thumbs)))]> ∅))
           | S n => nth n (fmts ++ thumbs)%list ∅
           end.

Definition ex_audio_fmt : dict :=
  <["format_id" := VStr "140"]> (<["acodec" := VStr "mp4a.40.2"]>
  (<["vcodec" := VStr "none"]> (<["audio_ext" := VStr "m4a"]>
  (<["filesize" := VInt 1000]> ∅)))).

Definition ex_video_fmt : dict :=
  <["format_id" := VStr "137"]> (<["acodec" := VStr "none"]>
  (<["vcodec" := VStr "avc1"]> (<["video_ext" := VStr "mp4"]>
  (<["width" := VInt 1920]> (<["height" := VInt 1080]> ∅))))).

Definition ex_thumb : dict :=
  <["url" := VStr "https://i.ytimg.com/vi/x/maxresdefault.jpg"]>
  (<["resolution" := VStr "1280x720"]> ∅).

Definition ex_heap : heap :=
  probe_heap "clip.webm" [ex_audio_fmt; ex_video_fmt] [ex_thumb].

(** A format with a non-numeric id and an audio codec. *)
Definition hls_fmt : dict :=
  <["format_id" := VStr "hls-140"]> (<["acodec" := VStr "mp4a.40.2"]>
  (<["vcodec" := VStr "none"]> ∅)).

(** A format whose id carries surrounding whitespace. *)
Definition spaced_fmt : dict :=
  <["format_id" := VStr " 140 "]> (<["acodec" := VStr "mp4a.40.2"]>
  (<["vcodec" := VStr "none"]> ∅)).

(** A thumbnail whose resolution is the empty string. *)
Definition blank_thumb : dict :=
  <["url" := VStr "https://i.ytimg.com/vi/x/default.jpg"]>
  (<["resolution" := VStr ""]> ∅).

Definition is_ascii_digit (c : ascii) : bool :=
  let n := nat_of_ascii c in (48 <=? n) && (n <=? 57).

(** [s.isdigit()] for a str of ASCII characters: non-empty and every
    character one of 0-9. *)
Definition ascii_isdigit (s : string) : bool :=
  match s with
  | EmptyString => false
  | _ => forallb is_ascii_digit (list_ascii_of_string s)
  end.

(** A runtime whose [json.loads] decodes the probe output of this run; the
    strs of the run are ASCII. *)
Definition ex_runtime : PyRuntime := {|
  float_of_str := fun _ => None;
  str_other := fun _ => "";
  json_loads := fun s => if String.eqb s "PROBE" then Some (ex_heap, VDict 0) else None;
  str_isdigit := ascii_isdigit
|}.

Definition ex_world (audio video thumb : nat) : world := {|
  w_home := "/home/user";
  w_cwd := "/home/user";
  w_exists := fun _ => Ok true;
  w_chdir := fun d => Ok d;
  w_launch := fun _ => None;
  w_stdin := ["https://youtu.be/x "; ""];
  w_probe := {| returncode := 0; stdout := "PROBE"; stderr := "" |};
  w_audio_choice := audio;
  w_video_choice := video;
  w_thumb_choice := thumb
|}.

Definition init_state : state := {| trace := []; hp := fun _ => ∅ |}.

(** The state right after the probe of [ex_world] has been decoded. *)
Definition ex_state : state := {| trace := []; hp := ex_heap |}.

(** A world whose probe fails: yt-dlp exits with status 1. *)
Definition failing_world : world := {|
  w_home := "/home/user";
  w_cwd := "/";
  w_exists := fun _ => Ok true;
  w_chdir := fun d => Ok d;
  w_launch := fun _ => None;
  w_stdin := ["https://youtu.be/x"];
  w_probe := {| returncode := 1; stdout := "";
                stderr := "ERROR: [youtube] x: Video unavailable" |};
  w_audio_choice := 0;
  w_video_choice := 0;
  w_thumb_choice := 0
|}.

(** ** Format Classifier: the predicates of lines 103-109 *)

Section ClassifierPredicates.
Context `{PyRuntime}.

(** [fmt.get("format_id", "").strip().isdigit()], false where it raises. *)
Definition fmt_id_ok (d : dict) : bool :=
  match dget d "format_id" (VStr "") with
  | VStr fid => str_isdigit (py_strip fid)
  | _ => false
  end.

Definition is_audio_fmt (d : dict) : bool :=
  fmt_id_ok d && ne_none_str (dget d "acodec" (VStr "none")).

Definition is_video_fmt (d : dict) : bool :=
  fmt_id_ok d && negb (ne_none_str (dget d "acodec" (VStr "none")))
  && ne_none_str (dget d "vcodec" (VStr "none")).

End ClassifierPredicates.

(** The dicts of [items] that satisfy [p], in order. *)
Definition select_locs (h : heap) (p : dict -> bool) (items : list value) : list loc :=
  flat_map (fun x => match x with
                     | VDict l => if p (h l) then [l] else []
                     | _ => []
                     end) items.

Definition ex_classified : classified :=
  {| c_audio := [1]; c_video := [2]; c_image := [3]; c_metadata := 0 |}.

(** ** The outcome of a run *)

(** The output directory of main, line 240. *)
Definition main_outdir (w : world) : string :=
  path_str (path_absolute (w_cwd w) (output_dirpath w)).

(** The values a menu can return: None, or a non-empty str. *)
Definition selection_value (v : value) : Prop :=
  v = VNone \/ exists s, v = VStr s /\ s <> "".

(** The flags of lines 265-272. *)
Definition stage_args (h : heap) (audio_format video_format : value)
    (thumbnail_format : value * list string) : list string :=
  if audio_only h audio_format video_format
  then (thumbnail_format.2 ++ ["-x"; "--audio-format"; "mp3"])%list
  else (thumbnail_format.2 ++ ["--merge-output-format"; "mp4"])%list.

Definition stage_ext (h : heap) (audio_format video_format : value) : string :=
  if audio_only h audio_format video_format then ".mp3" else ".mp4".

(** ** Reading the menu lines *)

(** A value Python's [fmt.get(k)] returns as [None]: the key is missing or
    holds JSON null. *)
Definition absent (o : option value) : Prop := o = None \/ o = Some VNone.

(** A JSON number [float()] converts, and the float it gives: an int is
    rounded to the nearest double. *)
Definition numeric (v : value) (q : Q) : Prop :=
  (exists z, v = VInt z /\ int_to_float z = Some q) \/ v = VFloat q.

(** A JSON integer beyond the range of a double: [float()] raises
    OverflowError. *)
Definition too_large (o : option value) : Prop :=
  exists z, o = Some (VInt z) /\ int_to_float z = None.

(** The value of the replacement field that follows the literal [label]. *)
Fixpoint field_after (t : text) (label : string) : option value :=
  match t with
  | [] => None
  | Lit s :: rest =>
      if String.eqb s label
      then match rest with Fld v _ :: _ => Some v | _ => None end
      else field_after rest label
  | Fld _ _ :: rest => field_after rest label
  end.

(** ** ffmpeg_remux, lines 124-131

    Not called by main (its call, lines 285-286, is commented out).
    [resolve] is [Path.resolve()], which consults the file system; the
    [audio_only] keyword argument is unused. *)
Definition ffmpeg_remux (w : world) (resolve : path -> string) (file : path) : M path :=
  outpath ← lift (with_suffix file (".remux" ++ name_suffix (path_name file)));
  let command := [ffmpeg_bin; "-i"; resolve file; "-c"; "copy"; "-c:a"; "aac";
                  resolve outpath] in
  print_command command;;
  match w_launch w ffmpeg_bin with
  | None => emit (Spawn command)
  | Some e => raise e
  end;;
  mret outpath.

(** ** Announced processes

    [print_command] echoes a command line before the process is started.
    [announced_after prev t]: in the events [t], which follow [prev], every
    spawned process comes right after the echo of its command line. *)
Fixpoint announced_after (prev : option event) (t : list event) : Prop :=
  match t with
  | [] => True
  | e :: r =>
      (forall c, e = Spawn c ->
                 prev = Some (Echo (Style_DIM ++ "$ " ++ String.concat " " c))) /\
      announced_after (Some e) r
  end.

Definition announced (t : list event) : Prop := announced_after None t.

(** An action that keeps every spawned process announced. *)
Definition keeps_announced {A} (m : M A) : Prop :=
  forall s, announced (trace s) -> announced (trace (fst (m s))).

(** * Proofs *)

(** ** Paths: what [with_suffix] predicts *)

Lemma rfind_go_app (l1 l2 : list ascii) c i f :
  rfind_go (l1 ++ l2) c i f = rfind_go l2 c (i + length l1) (rfind_go l1 c i f).
Proof.
  revert i f. induction l1 as [|x l1 IH]; intros i f; simpl.
  - now rewrite Nat.add_0_r.
  - rewrite IH. f_equal. lia.
Qed.

Lemma append_nil (y : string) : "" ++ y = y.
Proof. reflexivity. Qed.

Lemma append_cons c (x y : string) : String c x ++ y = String c (x ++ y).
Proof. reflexivity. Qed.

Lemma list_ascii_of_string_app (x y : string) :
  list_ascii_of_string (x ++ y) = (list_ascii_of_string x ++ list_ascii_of_string y)%list.
Proof. induction x as [|c x IH]; rewrite ?append_nil, ?append_cons; simpl; congruence. Qed.

Lemma list_ascii_of_string_length (x : string) :
  length (list_ascii_of_string x) = String.length x.
Proof. induction x as [|c x IH]; simpl; congruence. Qed.

Lemma string_length_app (x y : string) :
  String.length (x ++ y) = String.length x + String.length y.
Proof. induction x as [|c x IH]; rewrite ?append_nil, ?append_cons; simpl; congruence. Qed.

Lemma substring_app_r (x y : string) n :
  substring (String.length x) n (x ++ y) = substring 0 n y.
Proof. induction x as [|c x IH]; rewrite ?append_nil, ?append_cons; simpl; auto. Qed.

Lemma substring_full (e : string) : substring 0 (String.length e) e = e.
Proof. induction e as [|c e IH]; simpl; congruence. Qed.

Lemma substring_length (s : string) n m :
  n + m <= String.length s -> String.length (substring n m s) = m.
Proof.
  revert n m. induction s as [|c s IH]; intros n m Hle; simpl in *.
  - destruct n, m; simpl in *; lia.
  - destruct n as [|n].
    + destruct m as [|m]; simpl; [reflexivity|]. f_equal. apply IH. lia.
    + apply IH. lia.
Qed.

Section Suffix.
(** A suffix "." followed by at least one character, none of them a dot. *)
Variable e : string.
Hypothesis He_dot : forall j f, rfind_go (list_ascii_of_string e) DOT j f = Some j.
Hypothesis He_len : 2 <= String.length e.

Lemma name_suffix_app (x : string) :
  x <> "" -> name_suffix (x ++ e) = e.
Proof.
  intros Hx. unfold name_suffix, rfind.
  rewrite list_ascii_of_string_app, rfind_go_app, He_dot, list_ascii_of_string_length.
  simpl. rewrite string_length_app.
  assert (0 < String.length x) by (destruct x; simpl; [congruence | lia]).
  replace (0 <? String.length x) with true by (symmetry; apply Nat.ltb_lt; lia).
  replace (String.length x <? String.length x + String.length e - 1) with true
    by (symmetry; apply Nat.ltb_lt; lia).
  simpl. rewrite substring_app_r.
  replace (String.length x + String.length e - String.length x) with (String.length e) by lia.
  apply substring_full.
Qed.

Lemma name_suffix_nonempty_prefix (name : string) :
  name_suffix name <> "" ->
  substring 0 (String.length name - String.length (name_suffix name)) name <> "".
Proof.
  unfold name_suffix. destruct (rfind name DOT) as [i|]; [|congruence].
  destruct ((0 <? i) && (i <? String.length name - 1)) eqn:Hi; [|congruence].
  intros _. apply andb_true_iff in Hi as [H0 H1].
  apply Nat.ltb_lt in H0. apply Nat.ltb_lt in H1.
  rewrite (substring_length name i (String.length name - i)) by lia.
  intros Hs. apply (f_equal String.length) in Hs.
  rewrite substring_length in Hs by lia. simpl in Hs. lia.
Qed.

(** The predicted path carries the new suffix. *)
Lemma with_suffix_suffix (p p' : path) :
  with_suffix p e = Ok p' -> name_suffix (path_name p') = e.
Proof.
  unfold with_suffix.
  destruct (existsb _ _); [discriminate|].
  destruct (_ || _); [discriminate|].
  destruct (String.eqb (path_name p) "") eqn:Hn; [discriminate|].
  intros Hok. injection Hok as <-.
  unfold path_name at 1. simpl. rewrite last_snoc. simpl.
  apply String.eqb_neq in Hn.
  destruct (String.eqb (name_suffix (path_name p)) "") eqn:Ho.
  - now apply name_suffix_app.
  - apply String.eqb_neq in Ho. apply name_suffix_app.
    now apply name_suffix_nonempty_prefix.
Qed.
End Suffix.

Lemma rfind_mp3 j f : rfind_go (list_ascii_of_string ".mp3") DOT j f = Some j.
Proof. reflexivity. Qed.

Lemma rfind_mp4 j f : rfind_go (list_ascii_of_string ".mp4") DOT j f = Some j.
Proof. reflexivity. Qed.

Lemma with_suffix_mp3 p p' : with_suffix p ".mp3" = Ok p' -> name_suffix (path_name p') = ".mp3".
Proof. apply with_suffix_suffix; [apply rfind_mp3 | simpl; lia]. Qed.

Lemma with_suffix_mp4 p p' : with_suffix p ".mp4" = Ok p' -> name_suffix (path_name p') = ".mp4".
Proof. apply with_suffix_suffix; [apply rfind_mp4 | simpl; lia]. Qed.

(** [with_suffix] fails only on a path with an empty name. *)
Lemma with_suffix_media_ok p e :
  (e = ".mp3" \/ e = ".mp4") -> path_name p <> "" -> exists p', with_suffix p e = Ok p'.
Proof.
  intros He Hn. apply String.eqb_neq in Hn.
  unfold with_suffix. destruct He as [-> | ->]; simpl; rewrite Hn; eauto.
Qed.

(** ** Format Classifier *)

Lemma select_locs_In h p items l :
  In l (select_locs h p items) <-> In (VDict l) items /\ p (h l) = true.
Proof.
  unfold select_locs. rewrite in_flat_map. split.
  - intros [x [Hx Hl]]. destruct x; try contradiction.
    destruct (p (h l0)) eqn:Hp; simpl in Hl; [|contradiction].
    destruct Hl as [<-|[]]. auto.
  - intros [Hx Hp]. exists (VDict l). rewrite Hp. simpl. auto.
Qed.

Lemma classify_thumbnails_list h ts image image' :
  classify_thumbnails h ts image = Ok image' ->
  image' = (image ++ select_locs h (fun d => py_truthy h (dget d "resolution" VNone)) ts)%list.
Proof.
  revert image.
  induction ts as [|x rest IH]; intros image Hc; simpl in Hc.
  - injection Hc as <-. simpl. now rewrite app_nil_r.
  - destruct x as [| | | | | |l|]; try discriminate.
    unfold select_locs. simpl.
    fold (select_locs h (fun d => py_truthy h (dget d "resolution" VNone)) rest).
    destruct (py_truthy h (dget (h l) "resolution" VNone)); simpl.
    + apply IH in Hc as ->. now rewrite <- app_assoc.
    + exact (IH _ Hc).
Qed.

Section ClassifierProofs.
Context `{PyRuntime}.

Lemma classify_formats_lists h fmts audio video audio' video' :
  classify_formats h fmts audio video = Ok (audio', video') ->
  audio' = (audio ++ select_locs h is_audio_fmt fmts)%list /\
  video' = (video ++ select_locs h is_video_fmt fmts)%list.
Proof.
  revert audio video.
  induction fmts as [|x rest IH]; intros audio video Hc; simpl in Hc.
  - injection Hc as <- <-. simpl. now rewrite !app_nil_r.
  - destruct x as [| | | | | |l|]; try discriminate.
    unfold select_locs. simpl. fold (select_locs h is_audio_fmt rest).
    fold (select_locs h is_video_fmt rest).
    unfold is_audio_fmt at 1, is_video_fmt at 1, fmt_id_ok at 1 2.
    destruct (dget (h l) "format_id" (VStr "")) eqn:Hid; try discriminate.
    destruct (str_isdigit (py_strip s)) eqn:Hd; simpl in Hc |- *.
    + destruct (ne_none_str (dget (h l) "acodec" (VStr "none"))) eqn:Ha; simpl.
      * apply IH in Hc as [-> ->]. now rewrite <- app_assoc.
      * destruct (ne_none_str (dget (h l) "vcodec" (VStr "none"))) eqn:Hv; simpl.
        -- apply IH in Hc as [-> ->]. now rewrite <- app_assoc.
        -- exact (IH _ _ Hc).
    + exact (IH _ _ Hc).
Qed.

(** What a successful classification returns. *)
Lemma classify_ok h md r :
  classify h md = Ok r ->
  md = VDict (c_metadata r) /\
  (exists fl, py_iter h (dget (h (c_metadata r)) "formats" VNone) = Ok fl /\
              c_audio r = select_locs h is_audio_fmt fl /\
              c_video r = select_locs h is_video_fmt fl) /\
  (exists ts, py_iter h (dget (h (c_metadata r)) "thumbnails" VNone) = Ok ts /\
              c_image r = select_locs h (fun d => py_truthy h (dget d "resolution" VNone)) ts).
Proof.
  destruct md as [| | | | | |m|]; try discriminate.
  unfold classify, mbind, result_bind, mret, result_ret.
  destruct (py_iter h (dget (h m) "formats" VNone)) as [fl|] eqn:Hf; [|discriminate].
  destruct (classify_formats h fl [] []) as [[audio video]|] eqn:Hc; [|discriminate].
  destruct (py_iter h (dget (h m) "thumbnails" VNone)) as [ts|] eqn:Ht; [|discriminate].
  destruct (classify_thumbnails h ts []) as [image|] eqn:Hi; [|discriminate].
  intros E. injection E as <-. simpl.
  apply classify_formats_lists in Hc as [-> ->].
  apply classify_thumbnails_list in Hi as ->.
  split; [reflexivity|]. split; eauto.
Qed.

(** C4 (amended): of the listed formats, one whose stripped id passes
    [isdigit()] and whose audio codec is not "none" is in the audio list and
    not in the video list, whatever its video codec; one whose stripped id
    fails [isdigit()] is in neither list. *)
Theorem classify_audio_codec_audio_only h md r fl l :
  classify h md = Ok r ->
  py_iter h (dget (h (c_metadata r)) "formats" VNone) = Ok fl ->
  In (VDict l) fl ->
  (fmt_id_ok (h l) = true ->
   ne_none_str (dget (h l) "acodec" (VStr "none")) = true ->
   In l (c_audio r) /\ ~ In l (c_video r)) /\
  (fmt_id_ok (h l) = false ->
   ~ In l (c_audio r) /\ ~ In l (c_video r)).
Proof.
  intros Hc Hfl Hin.
  destruct (classify_ok h md r Hc) as [_ [[fl' [Hfl' [Ha' Hv']]] _]].
  rewrite Hfl in Hfl'. injection Hfl' as <-.
  rewrite Ha', Hv', !select_locs_In.
  unfold is_audio_fmt, is_video_fmt. split.
  - intros Hid Ha. rewrite Hid, Ha. simpl.
    split; [tauto | intros [_ F]; discriminate].
  - intros Hid. rewrite Hid. simpl. split; intros [_ F]; discriminate.
Qed.

(** C5 (amended): a format dict whose [format_id], once stripped of
    surrounding whitespace by [str.strip()], fails [str.isdigit()] (a
    missing id counts as "", a non-str id raises before) is in neither the
    audio nor the video list. *)
Theorem classify_drops_non_digit_ids h md r l :
  classify h md = Ok r ->
  fmt_id_ok (h l) = false ->
  ~ In l (c_audio r) /\ ~ In l (c_video r).
Proof.
  intros Hc Hid.
  destruct (classify_ok h md r Hc) as [_ [[fl [_ [-> ->]]] _]].
  rewrite !select_locs_In. unfold is_audio_fmt, is_video_fmt. rewrite Hid.
  simpl. split; intros [_ F]; discriminate.
Qed.

(** C6 (amended): a listed thumbnail is in the thumbnail list exactly when
    its resolution is truthy: present, not None and not the empty string. *)
Theorem classify_thumbnail_truthy_resolution h md r ts l :
  classify h md = Ok r ->
  py_iter h (dget (h (c_metadata r)) "thumbnails" VNone) = Ok ts ->
  In l (c_image r) <->
  In (VDict l) ts /\ py_truthy h (dget (h l) "resolution" VNone) = true.
Proof.
  intros Hc Hts.
  destruct (classify_ok h md r Hc) as [_ [_ [ts' [Hts' ->]]]].
  rewrite Hts in Hts'. injection Hts' as <-.
  apply select_locs_In.
Qed.

End ClassifierProofs.

Lemma ex_classify : @classify ex_runtime ex_heap (VDict 0) = Ok ex_classified.
Proof. reflexivity. Qed.

(** C4 (as stated): a format with an audio codec but a non-numeric id is in
    neither list, so not in the audio list. *)
Lemma classify_audio_codec_counterexample :
  let h := probe_heap "clip.webm" [hls_fmt] [] in
  py_iter h (dget (h 0) "formats" VNone) = Ok [VDict 1] /\
  ne_none_str (dget (h 1) "acodec" (VStr "none")) = true /\
  @classify ex_runtime h (VDict 0) =
    Ok {| c_audio := []; c_video := []; c_image := []; c_metadata := 0 |}.
Proof. split; [|split]; reflexivity. Qed.

Lemma classify_audio_codec_audio_only_witness :
  (In 1 (c_audio ex_classified) /\ ~ In 1 (c_video ex_classified)) /\
  (~ In 1 (c_audio {| c_audio := []; c_video := []; c_image := []; c_metadata := 0 |}) /\
   ~ In 1 (c_video {| c_audio := []; c_video := []; c_image := []; c_metadata := 0 |})).
Proof.
  split.
  - apply (@classify_audio_codec_audio_only ex_runtime ex_heap (VDict 0) ex_classified
             [VDict 1; VDict 2] 1 ex_classify);
      [reflexivity | simpl; auto | reflexivity | reflexivity].
  - apply (@classify_audio_codec_audio_only ex_runtime
             (probe_heap "clip.webm" [hls_fmt] []) (VDict 0)
             {| c_audio := []; c_video := []; c_image := []; c_metadata := 0 |}
             [VDict 1] 1);
      [reflexivity | reflexivity | simpl; auto | reflexivity].
Defined.

(** C5 (as stated): a format whose id " 140 " is not an all-digit string is
    still put in the audio list, [strip()] removing its blanks first. *)
Lemma classify_spaced_id_counterexample :
  let h := probe_heap "clip.webm" [spaced_fmt] [] in
  dget (h 1) "format_id" VNone = VStr " 140 " /\
  @str_isdigit ex_runtime " 140 " = false /\
  @classify ex_runtime h (VDict 0) =
    Ok {| c_audio := [1]; c_video := []; c_image := []; c_metadata := 0 |}.
Proof. split; [|split]; reflexivity. Qed.

Lemma classify_drops_non_digit_ids_witness :
  ~ In 1 (c_audio {| c_audio := []; c_video := []; c_image := []; c_metadata := 0 |}) /\
  ~ In 1 (c_video {| c_audio := []; c_video := []; c_image := []; c_metadata := 0 |}).
Proof.
  apply (@classify_drops_non_digit_ids ex_runtime
           (probe_heap "clip.webm" [hls_fmt] []) (VDict 0));
    reflexivity.
Defined.

(** C6 (as stated): a thumbnail whose resolution is present but is the
    empty string is not in the thumbnail list. *)
Lemma classify_blank_resolution_counterexample :
  let h := probe_heap "clip.webm" [] [blank_thumb] in
  py_iter h (dget (h 0) "thumbnails" VNone) = Ok [VDict 1] /\
  h 1 !! "resolution" = Some (VStr "") /\
  @classify ex_runtime h (VDict 0) =
    Ok {| c_audio := []; c_video := []; c_image := []; c_metadata := 0 |}.
Proof. split; [|split]; reflexivity. Qed.

Lemma classify_thumbnail_truthy_resolution_witness :
  In 3 (c_image ex_classified) <->
  In (VDict 3) [VDict 3] /\ py_truthy ex_heap (dget (ex_heap 3) "resolution" VNone) = true.
Proof.
  apply (@classify_thumbnail_truthy_resolution ex_runtime ex_heap (VDict 0) ex_classified);
    [exact ex_classify | reflexivity].
Defined.

(** ** Running the monad *)

Lemma bind_run {A B} (m : M A) (f : A -> M B) s :
  (m ≫= f) s = match m s with (s', Ok a) => f a s' | (s', Err e) => (s', Err e) end.
Proof. reflexivity. Qed.

Lemma ret_run {A} (a : A) s : (mret a : M A) s = (s, Ok a).
Proof. reflexivity. Qed.

Ltac run_M :=
  repeat progress (rewrite ?bind_run, ?ret_run;
                   cbn [emit print_command raise lift get_heap put_heap trace hp fst snd negb andb orb]).

(** ** Metadata Fetcher *)

Section FetcherProofs.
Context `{PyRuntime}.

Lemma w_found_launch w b : w_found w b = true -> w_launch w b = None.
Proof. unfold w_found. destruct (w_launch w b); [discriminate | reflexivity]. Qed.

Lemma request_probe_failure w yturl s :
  w_launch w ytdlp_bin = None ->
  has_nul yturl = false ->
  returncode (w_probe w) <> 0%Z ->
  request_ytdlp_metadata w yturl s =
    ({| trace := (trace s ++
          [Echo (Style_DIM ++ "$ " ++ String.concat " " [ytdlp_bin; "-j"; yturl]);
           Spawn [ytdlp_bin; "-j"; yturl];
           Echo (Fore_RED ++ "Critical error:");
           Echo (stderr (w_probe w))])%list;
        hp := hp s |}, Err SystemExit).
Proof.
  intros Hf Hnul Hrc. unfold request_ytdlp_metadata, run_command. simpl hd.
  simpl existsb. rewrite Hnul.
  apply Z.eqb_neq in Hrc. rewrite Hf, Hrc. run_M.
  now rewrite <- !app_assoc.
Qed.

Lemma check_dependency_found w p msg s :
  has_nul p = false ->
  w_launch w p = None ->
  check_dependency_path w p msg s =
    ({| trace := (trace s ++ [Echo (Style_DIM ++ "$ " ++ String.concat " " [p]);
                              Spawn [p]])%list;
        hp := hp s |}, Ok true).
Proof.
  intros Hnul Hf. unfold check_dependency_path, run_command. simpl hd.
  simpl existsb. rewrite Hnul, orb_false_r, Hf.
  run_M. now rewrite <- app_assoc.
Qed.

(** C9: when the probe exits with a non-zero status, request_ytdlp_metadata
    prints "Critical error:" and the captured standard error and raises
    SystemExit, returning no result; main does not catch it, so a run that
    reaches the probe ends right there: no retry, no menu, no download, the
    heap as it was before the probe. *)
Theorem main_probe_failure_fatal w :
  w_launch w ytdlp_bin = None ->
  returncode (w_probe w) <> 0%Z ->
  (forall yturl s,
     has_nul yturl = false ->
     request_ytdlp_metadata w yturl s =
       ({| trace := (trace s ++
             [Echo (Style_DIM ++ "$ " ++ String.concat " " [ytdlp_bin; "-j"; yturl]);
              Spawn [ytdlp_bin; "-j"; yturl];
              Echo (Fore_RED ++ "Critical error:");
              Echo (stderr (w_probe w))])%list;
           hp := hp s |}, Err SystemExit)) /\
  (forall cwd line s,
     w_exists w (main_outdir w) = Ok true ->
     w_chdir w (main_outdir w) = Ok cwd ->
     w_launch w ffmpeg_bin = None ->
     nth_error (w_stdin w) 0 = Some line ->
     has_nul (py_strip line) = false ->
     main w s =
       ({| trace := (trace s ++
             [Echo (Style_DIM ++ "$ " ++ String.concat " " ["cd"; main_outdir w]);
              Chdir (main_outdir w);
              Echo (Style_DIM ++ "$ " ++ String.concat " " [ffmpeg_bin]);
              Spawn [ffmpeg_bin];
              Echo (Style_DIM ++ "$ " ++ String.concat " " [ytdlp_bin]);
              Spawn [ytdlp_bin];
              Prompt "YouTube URL: ";
              Echo (Style_DIM ++ "$ " ++
                     String.concat " " [ytdlp_bin; "-j"; py_strip line]);
              Spawn [ytdlp_bin; "-j"; py_strip line];
              Echo (Fore_RED ++ "Critical error:");
              Echo (stderr (w_probe w))])%list;
           hp := hp s |}, Err SystemExit)).
Proof.
  intros Hyt Hrc. split.
  - intros yturl s Hnul. exact (request_probe_failure w yturl s Hyt Hnul Hrc).
  - intros cwd line s Hex Hcd Hff Hline Hnul.
    unfold main. cbv zeta. fold (main_outdir w).
    rewrite Hex. run_M. rewrite Hcd. run_M.
    rewrite (check_dependency_found w ffmpeg_bin _ _ eq_refl Hff). run_M.
    rewrite (check_dependency_found w ytdlp_bin _ _ eq_refl Hyt). run_M.
    unfold py_input. run_M. rewrite Hline. run_M.
    rewrite (request_probe_failure _ _ _ Hyt Hnul Hrc). run_M.
    now rewrite <- !app_assoc.
Qed.

End FetcherProofs.

(** ** Invocation Builder *)

Lemma download_stage_run w yturl a v th fp s p fmt :
  w_found w ytdlp_bin = true ->
  with_suffix fp (stage_ext (hp s) a v) = Ok p ->
  format_expr (hp s) a v = Ok fmt ->
  download_stage w yturl a v th fp s =
    ({| trace := (trace s ++
          [Echo (Style_DIM ++ "$ " ++ String.concat " "
                   ([ytdlp_bin; "-f"; fmt; yturl] ++ stage_args (hp s) a v th));
           Spawn ([ytdlp_bin; "-f"; fmt; yturl] ++ stage_args (hp s) a v th)])%list;
        hp := hp s |}, Ok p).
Proof.
  intros Hf Hws Hfmt. unfold download_stage, stage_args, stage_ext in *.
  run_M.
  destruct (audio_only (hp s) a v); rewrite Hws; run_M; rewrite Hfmt; run_M;
    unfold ytdlp_download; rewrite (w_found_launch _ _ Hf); run_M;
    now rewrite <- app_assoc.
Qed.

Lemma format_expr_two h a v :
  a <> "" -> v <> "" -> format_expr h (VStr a) (VStr v) = Ok (a ++ "+" ++ v).
Proof.
  intros Ha Hv. apply String.eqb_neq in Ha. apply String.eqb_neq in Hv.
  unfold format_expr. simpl. rewrite Ha, Hv. reflexivity.
Qed.

Lemma format_expr_selection h a v :
  selection_value a -> selection_value v -> exists fmt, format_expr h a v = Ok fmt.
Proof.
  intros [-> | [sa [-> Ha]]] [-> | [sv [-> Hv]]];
    unfold format_expr; simpl;
    repeat match goal with
           | H : ?x <> "" |- _ => apply String.eqb_neq in H; rewrite H; clear H
           end; simpl; eauto.
Qed.

Lemma audio_only_selection h a v :
  selection_value a -> selection_value v ->
  audio_only h a v = true <-> a <> VNone /\ v = VNone.
Proof.
  intros [-> | [sa [-> Ha]]] [-> | [sv [-> Hv]]]; unfold audio_only; simpl.
  - split; [discriminate | tauto].
  - split; [discriminate | tauto].
  - apply String.eqb_neq in Ha. rewrite Ha. simpl. split; [|reflexivity].
    intros _. split; [discriminate | reflexivity].
  - apply String.eqb_neq in Ha, Hv. rewrite Ha, Hv. simpl.
    split; [discriminate | intros [_ E]; discriminate].
Qed.

(** C2: on the values the menus return, audioOnly holds exactly when there
    is an audio selection and no video selection; then the download gets
    "-x --audio-format mp3" and the predicted path the suffix .mp3,
    otherwise "--merge-output-format mp4" and .mp4. *)
Theorem download_stage_audio_only_flags w yturl a v th fp s :
  selection_value a -> selection_value v ->
  w_found w ytdlp_bin = true -> path_name fp <> "" ->
  (audio_only (hp s) a v = true <-> a <> VNone /\ v = VNone) /\
  exists fmt p,
    download_stage w yturl a v th fp s =
      ({| trace := (trace s ++
            [Echo (Style_DIM ++ "$ " ++ String.concat " "
                     ([ytdlp_bin; "-f"; fmt; yturl] ++ stage_args (hp s) a v th));
             Spawn ([ytdlp_bin; "-f"; fmt; yturl] ++ stage_args (hp s) a v th)])%list;
          hp := hp s |}, Ok p) /\
    (audio_only (hp s) a v = true ->
       stage_args (hp s) a v th = (th.2 ++ ["-x"; "--audio-format"; "mp3"])%list /\
       name_suffix (path_name p) = ".mp3") /\
    (audio_only (hp s) a v = false ->
       stage_args (hp s) a v th = (th.2 ++ ["--merge-output-format"; "mp4"])%list /\
       name_suffix (path_name p) = ".mp4").
Proof.
  intros Ha Hv Hf Hn. split; [now apply audio_only_selection|].
  destruct (format_expr_selection (hp s) a v Ha Hv) as [fmt Hfmt].
  destruct (with_suffix_media_ok fp (stage_ext (hp s) a v)) as [p Hp]; auto.
  { unfold stage_ext. destruct (audio_only (hp s) a v); auto. }
  exists fmt, p. split; [now apply download_stage_run|].
  unfold stage_args, stage_ext in *.
  split; intros E; rewrite E in *; split; auto.
  - apply (with_suffix_mp3 fp). exact Hp.
  - apply (with_suffix_mp4 fp). exact Hp.
Qed.

(** C8: "no audio" together with "no video" is not rejected: audioOnly is
    false, the format expression is "", and yt-dlp is still run with
    "--merge-output-format mp4". *)
Theorem download_stage_no_audio_no_video w yturl th fp p s :
  w_found w ytdlp_bin = true ->
  with_suffix fp ".mp4" = Ok p ->
  audio_only (hp s) VNone VNone = false /\
  format_expr (hp s) VNone VNone = Ok "" /\
  download_stage w yturl VNone VNone th fp s =
    ({| trace := (trace s ++
          [Echo (Style_DIM ++ "$ " ++ String.concat " "
                   ([ytdlp_bin; "-f"; ""; yturl] ++ th.2 ++ ["--merge-output-format"; "mp4"]));
           Spawn ([ytdlp_bin; "-f"; ""; yturl] ++ th.2 ++ ["--merge-output-format"; "mp4"])])%list;
        hp := hp s |}, Ok p).
Proof.
  intros Hf Hp. split; [reflexivity|]. split; [reflexivity|].
  apply download_stage_run; auto.
Qed.

(** C1 (as stated): for audio "140" and video "137" the format expression
    is "140+137", not "137+140". *)
Lemma format_order_counterexample :
  format_expr ex_heap (VStr "140") (VStr "137") = Ok "140+137" /\
  "140+137" <> "137+140".
Proof. split; [reflexivity | discriminate]. Qed.

(** C1 (amended): for an audio id and a video id the format expression is
    the audio id, "+", the video id; the flags end with
    "--merge-output-format mp4" and the predicted path has suffix .mp4. *)
Theorem download_stage_audio_then_video w yturl aid vid th fp p s :
  aid <> "" -> vid <> "" ->
  w_found w ytdlp_bin = true ->
  with_suffix fp ".mp4" = Ok p ->
  format_expr (hp s) (VStr aid) (VStr vid) = Ok (aid ++ "+" ++ vid) /\
  download_stage w yturl (VStr aid) (VStr vid) th fp s =
    ({| trace := (trace s ++
          [Echo (Style_DIM ++ "$ " ++ String.concat " "
                   ([ytdlp_bin; "-f"; (aid ++ "+" ++ vid)%string; yturl] ++ th.2 ++
                    ["--merge-output-format"; "mp4"]));
           Spawn ([ytdlp_bin; "-f"; (aid ++ "+" ++ vid)%string; yturl] ++ th.2 ++
                  ["--merge-output-format"; "mp4"])])%list;
        hp := hp s |}, Ok p) /\
  name_suffix (path_name p) = ".mp4".
Proof.
  intros Ha Hv Hf Hp.
  assert (Hao : audio_only (hp s) (VStr aid) (VStr vid) = false).
  { unfold audio_only. simpl. apply String.eqb_neq in Hv. rewrite Hv.
    now rewrite andb_false_r. }
  split; [now apply format_expr_two|]. split; [|exact (with_suffix_mp4 fp p Hp)].
  pose proof (download_stage_run w yturl (VStr aid) (VStr vid) th fp s p (aid ++ "+" ++ vid)) as R.
  unfold stage_args, stage_ext in R. rewrite Hao in R. apply R; auto.
  now apply format_expr_two.
Qed.

(** ** Interactive Selector *)

Section SelectorProofs.
Context `{PyRuntime}.

Lemma pick_run t o di c s :
  pick t o di c s =
    ({| trace := (trace s ++ [Menu t (map fst o) di])%list; hp := hp s |},
     match nth_error o c with Some x => Ok x.2 | None => Err IndexError end).
Proof. unfold pick. run_M. destruct (nth_error o c); reflexivity. Qed.

Lemma audio_options_cons l rest opts s :
  audio_options (l :: rest) opts s =
    audio_options rest
      (opts ++ [(audio_text (audio_quantities (hp s l)),
                 dget (audio_quantities (hp s l)) "format_id" VNone)])%list
      {| trace := trace s; hp := heap_upd (hp s) l (audio_quantities (hp s l)) |}.
Proof. reflexivity. Qed.

Lemma audio_options_ok formats opts s :
  exists s' opts', audio_options formats opts s = (s', Ok opts').
Proof.
  revert opts s. induction formats as [|l rest IH]; intros opts s.
  - eexists _, _. reflexivity.
  - rewrite audio_options_cons. apply IH.
Qed.

Lemma video_options_cons l rest opts s :
  video_options (l :: rest) opts s =
    match format_wxh (video_quantities (hp s l)) with
    | Err e =>
        ({| trace := trace s; hp := heap_upd (hp s) l (video_quantities (hp s l)) |}, Err e)
    | Ok wxh =>
        video_options rest
          (opts ++ [(video_text (<["wxh" := VStr wxh]> (video_quantities (hp s l))),
                     dget (<["wxh" := VStr wxh]> (video_quantities (hp s l))) "format_id" VNone)])%list
          {| trace := trace s;
             hp := heap_upd (hp s) l (<["wxh" := VStr wxh]> (video_quantities (hp s l))) |}
    end.
Proof.
  cbn [video_options]. run_M.
  destruct (format_wxh (video_quantities (hp s l))); run_M; reflexivity.
Qed.
End SelectorProofs.

Section SelectorFrame.
Context `{PyRuntime}.

Lemma audio_quantities_other_keys d k :
  k <> "filesize" -> k <> "abr" -> k <> "asr" -> audio_quantities d !! k = d !! k.
Proof.
  intros H1 H2 H3. unfold audio_quantities.
  rewrite !lookup_insert_ne by congruence. reflexivity.
Qed.

Lemma video_quantities_other_keys d k :
  k <> "filesize" -> k <> "vbr" -> video_quantities d !! k = d !! k.
Proof.
  intros H1 H2. unfold video_quantities.
  rewrite !lookup_insert_ne by congruence. reflexivity.
Qed.

Lemma audio_options_frame formats opts s :
  let h' := hp (fst (audio_options formats opts s)) in
  (forall l, ~ In l formats -> h' l = hp s l) /\
  (forall l k, k <> "filesize" -> k <> "abr" -> k <> "asr" -> h' l !! k = hp s l !! k).
Proof.
  revert opts s. induction formats as [|l0 rest IH]; intros opts s; cbv zeta.
  - split; intros; reflexivity.
  - rewrite audio_options_cons.
    match goal with
    | |- context [audio_options rest ?o ?s'] => destruct (IH o s') as [IH1 IH2]
    end.
    cbn [hp] in IH1, IH2. split.
    + intros l Hl. rewrite IH1 by (intros Hin; apply Hl; now right). unfold heap_upd.
      destruct (Nat.eqb_spec l l0); [subst; exfalso; apply Hl; now left | reflexivity].
    + intros l k H1 H2 H3. rewrite IH2 by assumption. unfold heap_upd.
      destruct (Nat.eqb_spec l l0); [subst; now apply audio_quantities_other_keys | reflexivity].
Qed.

Lemma video_options_frame formats opts s :
  let h' := hp (fst (video_options formats opts s)) in
  (forall l, ~ In l formats -> h' l = hp s l) /\
  (forall l k, k <> "filesize" -> k <> "vbr" -> k <> "wxh" -> h' l !! k = hp s l !! k).
Proof.
  revert opts s. induction formats as [|l0 rest IH]; intros opts s; cbv zeta.
  - split; intros; reflexivity.
  - rewrite video_options_cons.
    destruct (format_wxh (video_quantities (hp s l0))) as [wxh|e].
    + match goal with
      | |- context [video_options rest ?o ?s'] => destruct (IH o s') as [IH1 IH2]
      end.
      cbn [hp] in IH1, IH2. split.
      * intros l Hl. rewrite IH1 by (intros Hin; apply Hl; now right). unfold heap_upd.
        destruct (Nat.eqb_spec l l0); [subst; exfalso; apply Hl; now left | reflexivity].
      * intros l k H1 H2 H3. rewrite IH2 by assumption. unfold heap_upd.
        destruct (Nat.eqb_spec l l0); [|reflexivity]. subst.
        rewrite lookup_insert_ne by congruence. now apply video_quantities_other_keys.
    + cbn [fst hp]. split.
      * intros l Hl. unfold heap_upd.
        destruct (Nat.eqb_spec l l0); [subst; exfalso; apply Hl; now left | reflexivity].
      * intros l k H1 H2 H3. unfold heap_upd.
        destruct (Nat.eqb_spec l l0); [subst; now apply video_quantities_other_keys | reflexivity].
Qed.

Lemma bind_heap {A B} (m : M A) (f : A -> M B) s :
  (forall a s', hp (fst (f a s')) = hp s') ->
  hp (fst ((m ≫= f) s)) = hp (fst (m s)).
Proof.
  intros Hf. rewrite bind_run. destruct (m s) as [s' [a|e]]; simpl; auto.
Qed.

Lemma audio_options_written formats opts s :
  List.NoDup formats -> forall l, In l formats ->
  hp (fst (audio_options formats opts s)) l = audio_quantities (hp s l).
Proof.
  revert opts s. induction formats as [|l0 rest IH]; intros opts s Hnd l Hl; [destruct Hl|].
  apply NoDup_cons_iff in Hnd as [Hn Hnd].
  rewrite audio_options_cons.
  destruct Hl as [<- | Hl].
  - match goal with
    | |- context [audio_options rest ?o ?s'] => destruct (audio_options_frame rest o s') as [F _]
    end.
    cbv zeta in F. rewrite (F l0 Hn). cbn [hp]. unfold heap_upd. now rewrite Nat.eqb_refl.
  - rewrite (IH _ _ Hnd l Hl). cbn [hp]. unfold heap_upd.
    destruct (Nat.eqb_spec l l0) as [->|]; [contradiction | reflexivity].
Qed.

Lemma video_options_written formats opts s s' opts' :
  List.NoDup formats -> video_options formats opts s = (s', Ok opts') ->
  forall l, In l formats ->
  exists wxh, format_wxh (video_quantities (hp s l)) = Ok wxh /\
              hp s' l = <["wxh" := VStr wxh]> (video_quantities (hp s l)).
Proof.
  revert opts s. induction formats as [|l0 rest IH]; intros opts s Hnd E l Hl; [destruct Hl|].
  apply NoDup_cons_iff in Hnd as [Hn Hnd].
  rewrite video_options_cons in E.
  destruct (format_wxh (video_quantities (hp s l0))) as [wxh|e] eqn:Hw; [|discriminate].
  destruct Hl as [<- | Hl].
  - exists wxh. split; [exact Hw|].
    match type of E with
    | video_options rest ?o ?s1 = _ => destruct (video_options_frame rest o s1) as [F _]
    end.
    cbv zeta in F. rewrite E in F. cbn [fst hp] in F. rewrite (F l0 Hn).
    unfold heap_upd. now rewrite Nat.eqb_refl.
  - destruct (IH _ _ Hnd E l Hl) as [w' [Hw' Hh]]. cbn [hp] in Hw', Hh.
    unfold heap_upd in Hw', Hh.
    destruct (Nat.eqb_spec l l0) as [->|]; [contradiction|]. eauto.
Qed.

Lemma video_options_err formats opts s s' e :
  video_options formats opts s = (s', Err e) -> e = KeyError "width" \/ e = KeyError "height".
Proof.
  revert opts s. induction formats as [|l0 rest IH]; intros opts s E; [discriminate|].
  rewrite video_options_cons in E.
  destruct (format_wxh (video_quantities (hp s l0))) as [wxh|e'] eqn:Hw; [eauto|].
  injection E as _ <-. unfold format_wxh in Hw.
  destruct (video_quantities (hp s l0) !! "width"); [|injection Hw as <-; auto].
  destruct (video_quantities (hp s l0) !! "height"); [discriminate | injection Hw as <-; auto].
Qed.

(** C3 (amended): the ProbeResult is not immutable: the selectors write
    into the format dicts of their own candidate list, fetched with the
    metadata, and there only the display keys.  After the audio selector,
    each candidate (listed once) holds its fetched dict with filesize, abr
    and asr replaced by their display values; after a video selector that
    reaches its menu, each candidate holds its fetched dict with filesize
    and vbr replaced by their display values and wxh added.  Dicts outside
    the list and all other keys are left alone; the thumbnail selector
    writes nothing. *)
Theorem selectors_write_display_keys_only formats default choice s :
  (let h' := hp (fst (pick_yt_audio_format formats default choice s)) in
   (forall l, ~ In l formats -> h' l = hp s l) /\
   (forall l k, k <> "filesize" -> k <> "abr" -> k <> "asr" -> h' l !! k = hp s l !! k) /\
   (List.NoDup formats -> forall l, In l formats -> h' l = audio_quantities (hp s l))) /\
  (let h' := hp (fst (pick_yt_video_format formats default choice s)) in
   (forall l, ~ In l formats -> h' l = hp s l) /\
   (forall l k, k <> "filesize" -> k <> "vbr" -> k <> "wxh" -> h' l !! k = hp s l !! k) /\
   (List.NoDup formats -> forall s' r, pick_yt_video_format formats default choice s = (s', r) ->
    (forall k, r <> Err (KeyError k)) -> forall l, In l formats ->
    exists wxh, format_wxh (video_quantities (hp s l)) = Ok wxh /\
                hp s' l = <["wxh" := VStr wxh]> (video_quantities (hp s l)))) /\
  hp (fst (pick_yt_thumbnail_format default choice s)) = hp s.
Proof.
  split; [|split].
  - cbv zeta. unfold pick_yt_audio_format.
    rewrite (bind_heap _ _ _ (fun a s' => ltac:(now rewrite pick_run))).
    destruct (audio_options_frame formats audio_sentinels s) as [F1 F2].
    split; [exact F1|]. split; [exact F2|].
    apply audio_options_written.
  - cbv zeta. unfold pick_yt_video_format.
    rewrite (bind_heap _ _ _ (fun a s' => ltac:(now rewrite pick_run))).
    destruct (video_options_frame formats video_sentinels s) as [F1 F2].
    split; [exact F1|]. split; [exact F2|].
    intros Hnd s' r E Hr. rewrite bind_run in E.
    destruct (video_options formats video_sentinels s) as [s1 [opts|e]] eqn:Ev.
    + rewrite pick_run in E. injection E as <- _. cbn [hp].
      exact (video_options_written _ _ _ _ _ Hnd Ev).
    + injection E as <- <-.
      destruct (video_options_err _ _ _ _ _ Ev) as [-> | ->]; exfalso; eapply Hr; reflexivity.
  - unfold pick_yt_thumbnail_format. rewrite bind_heap.
    + now rewrite pick_run.
    + intros a s'. reflexivity.
Qed.

End SelectorFrame.

Section VideoTotality.
Context `{PyRuntime}.

Lemma video_quantities_wh d :
  video_quantities d !! "width" = d !! "width" /\
  video_quantities d !! "height" = d !! "height".
Proof. split; apply video_quantities_other_keys; discriminate. Qed.

Lemma format_wxh_spec d :
  match format_wxh d with
  | Ok _ => d !! "width" <> None /\ d !! "height" <> None
  | Err e => (e = KeyError "width" \/ e = KeyError "height") /\
             (d !! "width" = None \/ d !! "height" = None)
  end.
Proof.
  unfold format_wxh.
  destruct (d !! "width"), (d !! "height"); simpl; intuition discriminate.
Qed.

Lemma video_options_spec formats opts s :
  match video_options formats opts s with
  | (_, Ok opts') =>
      (forall l, In l formats -> hp s l !! "width" <> None /\ hp s l !! "height" <> None) /\
      length opts' = length opts + length formats
  | (_, Err e) =>
      (e = KeyError "width" \/ e = KeyError "height") /\
      exists l, In l formats /\ (hp s l !! "width" = None \/ hp s l !! "height" = None)
  end.
Proof.
  revert opts s. induction formats as [|l0 rest IH]; intros opts s.
  - simpl. split; [intros l []|]. lia.
  - rewrite video_options_cons.
    pose proof (format_wxh_spec (video_quantities (hp s l0))) as Hw.
    destruct (video_quantities_wh (hp s l0)) as [Ew Eh].
    destruct (format_wxh (video_quantities (hp s l0))) as [wxh|e].
    + rewrite Ew, Eh in Hw.
      match goal with
      | |- context [video_options rest ?o ?s'] => pose proof (IH o s') as IHs
      end.
      destruct (video_options rest _ _) as [s2 [opts'|e]].
      * destruct IHs as [Hall Hlen]. split.
        -- intros l [<-|Hl]; [exact Hw|].
           specialize (Hall l Hl). cbn [hp] in Hall. unfold heap_upd in Hall.
           destruct (Nat.eqb_spec l l0); [subst; exact Hw | exact Hall].
        -- rewrite Hlen, length_app. simpl. lia.
      * destruct IHs as [He [l [Hl Hm]]]. split; [exact He|].
        exists l. split; [now right|]. cbn [hp] in Hm. unfold heap_upd in Hm.
        destruct (Nat.eqb_spec l l0); [subst | exact Hm].
        rewrite !lookup_insert_ne in Hm by discriminate.
        destruct (video_quantities_wh (hp s l0)) as [Ew' Eh'].
        rewrite Ew', Eh' in Hm. exact Hm.
    + rewrite Ew, Eh in Hw. destruct Hw as [He Hm]. split; [exact He|].
      exists l0. split; [now left | exact Hm].
Qed.

(** C10: with [choice] one of the options of the menu, the video selector
    raises KeyError('width') or KeyError('height') exactly when some
    candidate lacks the "width" or the "height" key; it never renders "N/A"
    for them. *)
Theorem video_selector_needs_width_height formats default choice s :
  choice < 2 + length formats ->
  (exists k s', pick_yt_video_format formats default choice s = (s', Err (KeyError k)) /\
                (k = "width" \/ k = "height")) <->
  (exists l, In l formats /\ (hp s l !! "width" = None \/ hp s l !! "height" = None)).
Proof.
  intros Hc. unfold pick_yt_video_format. rewrite bind_run.
  pose proof (video_options_spec formats video_sentinels s) as Hs.
  destruct (video_options formats video_sentinels s) as [s1 [opts|e]].
  - destruct Hs as [Hall Hlen]. rewrite pick_run.
    destruct (nth_error opts choice) eqn:Hn.
    + split.
      * intros [k [s' [E _]]]. discriminate.
      * intros [l [Hl Hm]]. destruct (Hall l Hl). tauto.
    + apply nth_error_None in Hn. simpl in Hlen. lia.
  - destruct Hs as [He Hex]. split; [intros _; exact Hex|].
    intros _. destruct He as [-> | ->]; eauto.
Qed.

End VideoTotality.

(** ** Rendering of the menu lines *)

Section Rendering.
Context `{PyRuntime}.

Lemma audio_quantities_lookup fmt :
  audio_quantities fmt !! "filesize" = Some (get_quantity (dget fmt "filesize" VNone) "B" (Some "N/A")) /\
  audio_quantities fmt !! "abr" = Some (get_quantity (dget fmt "abr" VNone) "" (Some "N/A")) /\
  audio_quantities fmt !! "asr" = Some (get_quantity (dget fmt "asr" VNone) "Hz" None).
Proof. unfold audio_quantities, dget. rewrite !lookup_insert. repeat split; reflexivity. Qed.

Lemma video_line_lookup fmt wxh :
  let v := <["wxh" := VStr wxh]> (video_quantities fmt) in
  v !! "filesize" = Some (get_quantity (dget fmt "filesize" VNone) "B" (Some "N/A")) /\
  v !! "vbr" = Some (get_quantity (dget fmt "vbr" VNone) "" None) /\
  v !! "fps" = fmt !! "fps".
Proof. unfold video_quantities, dget. rewrite !lookup_insert. repeat split; reflexivity. Qed.

Lemma audio_text_fields a :
  field_after (audio_text a) "  filesize: " = Some (dget a "filesize" (VStr "N/A")) /\
  field_after (audio_text a) "  bitrate: " = Some (dget a "abr" (VStr "N/A")) /\
  field_after (audio_text a) "  sample rate: " = Some (dget a "asr" (VStr "N/A")).
Proof. repeat split; reflexivity. Qed.

Lemma video_text_fields v :
  field_after (video_text v) "  filesize: " = Some (dget v "filesize" (VStr "N/A")) /\
  field_after (video_text v) "  bitrate: " = Some (dget v "vbr" (VStr "N/A")) /\
  field_after (video_text v) "  fps: " = Some (dget v "fps" (VStr "N/A")).
Proof. repeat split; reflexivity. Qed.

Lemma dget_some d k x dflt : d !! k = Some x -> dget d k dflt = x.
Proof. unfold dget. now intros ->. Qed.

Lemma absent_float fmt k :
  absent (fmt !! k) \/ too_large (fmt !! k) -> py_float (dget fmt k VNone) = None.
Proof. unfold dget. intros [[-> | ->] | [z [-> Hz]]]; [reflexivity | reflexivity | exact Hz]. Qed.

Lemma numeric_float fmt k x q :
  fmt !! k = Some x -> numeric x q -> py_float (dget fmt k VNone) = Some q.
Proof.
  unfold dget. intros -> [[z [-> Hz]] | ->]; [exact Hz | reflexivity].
Qed.

Lemma get_quantity_absent fmt k model info :
  absent (fmt !! k) \/ too_large (fmt !! k) -> get_quantity (dget fmt k VNone) model info =
  match info with Some i => VStr i | None => VQty 0 model end.
Proof. intros Ha. unfold get_quantity. now rewrite absent_float. Qed.

Lemma get_quantity_numeric fmt k x q model info :
  fmt !! k = Some x -> numeric x q ->
  get_quantity (dget fmt k VNone) model info = VQty q model.
Proof. intros Hx Hq. unfold get_quantity. now rewrite (numeric_float fmt k x q). Qed.

End Rendering.

(** C7 (counterexample): the example audio format has no sample rate, yet its
    menu line shows the quantity 0 Hz in that field, not "N/A". *)
Lemma menu_absent_sample_rate_counterexample :
  ex_audio_fmt !! "asr" = None /\
  field_after (audio_text (@audio_quantities ex_runtime ex_audio_fmt))
    "  sample rate: " = Some (VQty 0 "Hz").
Proof. split; vm_compute; reflexivity. Qed.

Section RenderingClaim.
Context `{PyRuntime}.

(** C7 (amended): in the audio line and the video line of a format dict,
    an absent filesize and an absent audio bitrate show "N/A", a missing fps
    shows "N/A", but an absent sample rate shows the quantity 0 Hz and an
    absent video bitrate the unitless quantity 0; an integer too large for
    [float()] (OverflowError) shows as if absent; a number [float()]
    converts, as filesize, audio bitrate, sample rate or video bitrate,
    shows as a quantity of that float with unit B, none, Hz and none; a
    present fps shows its raw value, with no unit. *)
Theorem menu_fields_rendering fmt wxh :
  let a := audio_quantities fmt in
  let v := <["wxh" := VStr wxh]> (video_quantities fmt) in
  (absent (fmt !! "filesize") \/ too_large (fmt !! "filesize") ->
     field_after (audio_text a) "  filesize: " = Some (VStr "N/A") /\
     field_after (video_text v) "  filesize: " = Some (VStr "N/A")) /\
  (absent (fmt !! "abr") \/ too_large (fmt !! "abr") ->
     field_after (audio_text a) "  bitrate: " = Some (VStr "N/A")) /\
  (absent (fmt !! "asr") \/ too_large (fmt !! "asr") ->
     field_after (audio_text a) "  sample rate: " = Some (VQty 0 "Hz")) /\
  (absent (fmt !! "vbr") \/ too_large (fmt !! "vbr") ->
     field_after (video_text v) "  bitrate: " = Some (VQty 0 "")) /\
  (fmt !! "fps" = None ->
     field_after (video_text v) "  fps: " = Some (VStr "N/A")) /\
  (forall x q, fmt !! "filesize" = Some x -> numeric x q ->
     field_after (audio_text a) "  filesize: " = Some (VQty q "B") /\
     field_after (video_text v) "  filesize: " = Some (VQty q "B")) /\
  (forall x q, fmt !! "abr" = Some x -> numeric x q ->
     field_after (audio_text a) "  bitrate: " = Some (VQty q "")) /\
  (forall x q, fmt !! "asr" = Some x -> numeric x q ->
     field_after (audio_text a) "  sample rate: " = Some (VQty q "Hz")) /\
  (forall x q, fmt !! "vbr" = Some x -> numeric x q ->
     field_after (video_text v) "  bitrate: " = Some (VQty q "")) /\
  (forall x, fmt !! "fps" = Some x ->
     field_after (video_text v) "  fps: " = Some x).
Proof.
  intros a v.
  destruct (audio_quantities_lookup fmt) as (Af & Ab & As).
  destruct (video_line_lookup fmt wxh) as (Vf & Vb & Vp).
  destruct (audio_text_fields a) as (Tf & Tb & Ts).
  destruct (video_text_fields v) as (Uf & Ub & Up).
  fold a in Af, Ab, As. fold v in Vf, Vb, Vp.
  rewrite Tf, Tb, Ts, Uf, Ub, Up.
  rewrite (dget_some _ _ _ _ Af), (dget_some _ _ _ _ Ab), (dget_some _ _ _ _ As),
    (dget_some _ _ _ _ Vf), (dget_some _ _ _ _ Vb).
  repeat match goal with |- _ /\ _ => split end.
  - intros Ha. now rewrite !get_quantity_absent.
  - intros Ha. now rewrite get_quantity_absent.
  - intros Ha. now rewrite get_quantity_absent.
  - intros Ha. now rewrite get_quantity_absent.
  - intros Hn. unfold dget. now rewrite Vp, Hn.
  - intros x q Hx Hq. now rewrite (get_quantity_numeric fmt "filesize" x q).
  - intros x q Hx Hq. now rewrite (get_quantity_numeric fmt "abr" x q).
  - intros x q Hx Hq. now rewrite (get_quantity_numeric fmt "asr" x q).
  - intros x q Hx Hq. now rewrite (get_quantity_numeric fmt "vbr" x q).
  - intros x Hx. unfold dget. now rewrite Vp, Hx.
Qed.

End RenderingClaim.

(** The theorem at the example audio format, whose sample rate is absent
    and whose filesize is the integer 1000. *)
Lemma menu_fields_rendering_witness :
  ex_audio_fmt !! "filesize" = Some (VInt 1000) /\
  field_after (audio_text (@audio_quantities ex_runtime ex_audio_fmt))
    "  filesize: " = Some (VQty (inject_Z 1000) "B") /\
  field_after (audio_text (@audio_quantities ex_runtime ex_audio_fmt))
    "  sample rate: " = Some (VQty 0 "Hz").
Proof.
  destruct (@menu_fields_rendering ex_runtime ex_audio_fmt "") as (_ & _ & Hs & _ & _ & Hf & _).
  split; [vm_compute; reflexivity|].
  split.
  - assert (Hz : int_to_float 1000 = Some (inject_Z 1000)) by (vm_compute; reflexivity).
    apply (proj1 (Hf (VInt 1000) (inject_Z 1000) ltac:(vm_compute; reflexivity)
      (or_introl (ex_intro _ 1000%Z (conj eq_refl Hz))))).
  - apply Hs. left. left. vm_compute. reflexivity.
Defined.

(** ** Examples of the claims at the concrete run *)

(** C3 (counterexample): in the run of [ex_world], the audio format dict at
    location 1 is listed in the fetched metadata's "formats", was fetched with
    filesize 1000, and after the menus its filesize is the Quantity 1000 B. *)
Lemma probe_result_mutated_counterexample :
  hp (fst (@main ex_runtime (ex_world 2 2 2) init_state)) 0 !! "formats"
    = Some (VList [VDict 1; VDict 2]) /\
  ex_heap 1 !! "filesize" = Some (VInt 1000) /\
  hp (fst (@main ex_runtime (ex_world 2 2 2) init_state)) 1 !! "filesize"
    = Some (VQty (inject_Z 1000) "B").
Proof. vm_compute. repeat split. Qed.

Lemma selectors_write_display_keys_only_witness :
  hp (fst (@pick_yt_audio_format ex_runtime [1] (Some "best") 2 ex_state)) 1 !! "format_id"
    = Some (VStr "140") /\
  hp (fst (@pick_yt_audio_format ex_runtime [1] (Some "best") 2 ex_state)) 1
    = @audio_quantities ex_runtime (ex_heap 1).
Proof.
  destruct (@selectors_write_display_keys_only ex_runtime [1] (Some "best") 2 ex_state)
    as [[_ [Ha Hw]] _].
  split.
  - rewrite (Ha 1 "format_id") by discriminate. vm_compute. reflexivity.
  - apply Hw; [repeat constructor; simpl; tauto | now left].
Defined.

Lemma video_selector_needs_width_height_witness :
  2 < 2 + length [2] /\
  ((exists k s', @pick_yt_video_format ex_runtime [2] (Some "best") 2 ex_state
                   = (s', Err (KeyError k)) /\ (k = "width" \/ k = "height")) <->
   (exists l, In l [2] /\ (hp ex_state l !! "width" = None \/ hp ex_state l !! "height" = None))).
Proof.
  split; [simpl; lia|].
  apply (@video_selector_needs_width_height ex_runtime [2] (Some "best") 2 ex_state).
  simpl. lia.
Defined.

Lemma main_probe_failure_fatal_witness :
  snd (@main ex_runtime failing_world init_state) = Err SystemExit.
Proof.
  destruct (@main_probe_failure_fatal ex_runtime failing_world) as [_ Hm];
    [reflexivity | discriminate |].
  rewrite (Hm "/home/user/Downloads" "https://youtu.be/x" init_state);
    reflexivity.
Defined.

Lemma download_stage_audio_then_video_witness :
  with_suffix (Path "clip.webm") ".mp4" = Ok (Path "clip.mp4") /\
  format_expr ex_heap (VStr "140") (VStr "137") = Ok ("140" ++ "+" ++ "137").
Proof.
  split; [vm_compute; reflexivity|].
  destruct (download_stage_audio_then_video (ex_world 2 2 0) "https://youtu.be/x"
              "140" "137" (VNone, []) (Path "clip.webm") (Path "clip.mp4") ex_state)
    as [Hf _]; [discriminate | discriminate | reflexivity | vm_compute; reflexivity |].
  exact Hf.
Defined.

Lemma download_stage_audio_only_flags_witness :
  audio_only ex_heap (VStr "140") VNone = true.
Proof.
  destruct (download_stage_audio_only_flags (ex_world 2 1 0) "https://youtu.be/x"
              (VStr "140") VNone (VNone, []) (Path "clip.webm") ex_state) as [Hiff _].
  - right. exists "140". split; [reflexivity | discriminate].
  - left. reflexivity.
  - reflexivity.
  - vm_compute. discriminate.
  - apply Hiff. split; [discriminate | reflexivity].
Defined.

Lemma download_stage_no_audio_no_video_witness :
  with_suffix (Path "clip.webm") ".mp4" = Ok (Path "clip.mp4") /\
  format_expr ex_heap VNone VNone = Ok "".
Proof.
  split; [vm_compute; reflexivity|].
  destruct (download_stage_no_audio_no_video (ex_world 1 1 0) "https://youtu.be/x"
              (VNone, []) (Path "clip.webm") (Path "clip.mp4") ex_state)
    as [_ [Hf _]]; [reflexivity | vm_compute; reflexivity |].
  exact Hf.
Defined.

(** * Further properties of the code *)

(** ** Classifier: candidates and failures *)

Section ClassifierFailures.
Context `{PyRuntime}.

Lemma classify_formats_err h fmts a v e :
  classify_formats h fmts a v = Err e -> e = AttributeError.
Proof.
  revert a v. induction fmts as [|x rest IH]; intros a v Hc; simpl in Hc; [discriminate|].
  destruct x as [| | | | | |l|]; try (injection Hc as <-; reflexivity).
  destruct (dget (h l) "format_id" (VStr "")); try (injection Hc as <-; reflexivity).
  repeat match type of Hc with
         | context [if ?b then _ else _] => destruct b
         end; eauto.
Qed.

(** An item of "formats" the classifier cannot read: not a dict, or a dict
    whose format_id is present but not a str. *)
Lemma classify_formats_bad h fmts a v x :
  In x fmts ->
  match x with
  | VDict l => exists w, h l !! "format_id" = Some w /\ forall s, w <> VStr s
  | _ => True
  end ->
  classify_formats h fmts a v = Err AttributeError.
Proof.
  revert a v. induction fmts as [|y rest IH]; intros a v Hin Hx; [destruct Hin|].
  destruct Hin as [-> | Hin].
  - destruct x as [| | | | | |l|]; try reflexivity.
    destruct Hx as [w [Hw Hns]]. simpl. unfold dget at 1. rewrite Hw.
    destruct w; try reflexivity. exfalso. eapply Hns. reflexivity.
  - simpl. destruct y as [| | | | | |l|]; try reflexivity.
    destruct (dget (h l) "format_id" (VStr "")); try reflexivity.
    repeat match goal with
           | |- context [if ?b then _ else _] => destruct b
           end; auto.
Qed.

(** X: the audio and the video candidate lists share no format, and every
    candidate has an id that is all digits once stripped. *)
Theorem classify_candidates_disjoint h md r :
  classify h md = Ok r ->
  (forall l, In l (c_audio r) -> ~ In l (c_video r)) /\
  (forall l, In l (c_audio r) \/ In l (c_video r) -> fmt_id_ok (h l) = true).
Proof.
  intros Hc. destruct (classify_ok h md r Hc) as [_ [[fl [_ [Ha Hv]]] _]].
  rewrite Ha, Hv. split.
  - intros l Hla Hlv. apply select_locs_In in Hla as [_ Pa].
    apply select_locs_In in Hlv as [_ Pv].
    unfold is_audio_fmt, is_video_fmt in *.
    apply andb_true_iff in Pa as [_ Pa]. rewrite Pa in Pv.
    rewrite andb_false_r in Pv. simpl in Pv. discriminate.
  - intros l [Hl | Hl]; apply select_locs_In in Hl as [_ P];
      unfold is_audio_fmt, is_video_fmt in P;
      repeat (apply andb_true_iff in P as [P _]); exact P.
Qed.

(** X: one unreadable item of "formats" (a non-dict, or a format_id that is
    present but not a str, JSON null included) makes the classifier raise
    AttributeError, wherever the item stands; it is not skipped. *)
Theorem classify_unreadable_format_raises h m fl x :
  dget (h m) "formats" VNone = VList fl -> In x fl ->
  match x with
  | VDict l => exists w, h l !! "format_id" = Some w /\ forall s, w <> VStr s
  | _ => True
  end ->
  classify h (VDict m) = Err AttributeError.
Proof.
  intros Hf Hin Hx. unfold classify. rewrite Hf. cbn [py_iter].
  unfold mbind, result_bind at 1.
  rewrite (classify_formats_bad h fl [] [] x Hin Hx). reflexivity.
Qed.

End ClassifierFailures.

Lemma classify_candidates_disjoint_witness :
  ~ In 1 (c_video ex_classified) /\ @fmt_id_ok ex_runtime (ex_heap 2) = true.
Proof.
  destruct (@classify_candidates_disjoint ex_runtime ex_heap (VDict 0) ex_classified ex_classify)
    as [Hd Hid].
  split.
  - apply Hd. simpl. now left.
  - apply Hid. right. simpl. now left.
Defined.


Lemma classify_unreadable_format_raises_witness :
  @classify ex_runtime
    (probe_heap "clip.webm" [<["format_id" := VInt 140]> ex_audio_fmt] []) (VDict 0)
    = Err AttributeError.
Proof.
  apply (@classify_unreadable_format_raises ex_runtime _ 0 [VDict 1] (VDict 1)).
  - reflexivity.
  - now left.
  - exists (VInt 140). split; [reflexivity | discriminate].
Defined.

Section FetchErrors.
Context `{PyRuntime}.

Lemma dget_absent d k : absent (d !! k) -> dget d k VNone = VNone.
Proof. unfold dget. now intros [-> | ->]. Qed.

Lemma request_ok_run w yturl s :
  w_found w ytdlp_bin = true -> has_nul yturl = false -> returncode (w_probe w) = 0%Z ->
  snd (request_ytdlp_metadata w yturl s) =
    match json_loads (stdout (w_probe w)) with
    | None => Err ValueError
    | Some (h, metadata) => classify h metadata
    end.
Proof.
  intros Hf Hnul Hrc. unfold request_ytdlp_metadata, run_command. simpl hd.
  simpl existsb. rewrite Hnul, (w_found_launch _ _ Hf), Hrc. run_M.
  destruct (json_loads (stdout (w_probe w))) as [[h md]|]; run_M; reflexivity.
Qed.

(** X: a probe of a URL without NUL that exits with status 0 but whose
    output is not JSON makes the fetch raise ValueError; decoded metadata
    without "formats" (missing or null) makes it raise TypeError, and so
    does metadata without "thumbnails" whose formats are readable. *)
Theorem request_ytdlp_metadata_bad_output w yturl s :
  w_found w ytdlp_bin = true -> has_nul yturl = false -> returncode (w_probe w) = 0%Z ->
  (json_loads (stdout (w_probe w)) = None ->
     snd (request_ytdlp_metadata w yturl s) = Err ValueError) /\
  (forall h m, json_loads (stdout (w_probe w)) = Some (h, VDict m) ->
     absent (h m !! "formats") ->
     snd (request_ytdlp_metadata w yturl s) = Err TypeError) /\
  (forall h m fl av, json_loads (stdout (w_probe w)) = Some (h, VDict m) ->
     dget (h m) "formats" VNone = VList fl ->
     classify_formats h fl [] [] = Ok av ->
     absent (h m !! "thumbnails") ->
     snd (request_ytdlp_metadata w yturl s) = Err TypeError).
Proof.
  intros Hf Hnul Hrc. rewrite (request_ok_run w yturl s Hf Hnul Hrc).
  split; [|split].
  - intros ->. reflexivity.
  - intros h m -> Ha. unfold classify. rewrite (dget_absent _ _ Ha). reflexivity.
  - intros h m fl [a v] -> Hfl Hc Ha. unfold classify. rewrite Hfl. cbn [py_iter].
    unfold mbind, result_bind at 1. rewrite Hc.
    unfold mbind, result_bind at 1. rewrite (dget_absent _ _ Ha). reflexivity.
Qed.

End FetchErrors.

Lemma request_ytdlp_metadata_bad_output_witness :
  snd (@request_ytdlp_metadata ex_runtime
         {| w_home := "/home/user"; w_cwd := "/home/user";
            w_exists := fun _ => Ok true; w_chdir := fun d => Ok d;
            w_launch := fun _ => None; w_stdin := ["https://youtu.be/x"];
            w_probe := {| returncode := 0; stdout := "<html>"; stderr := "" |};
            w_audio_choice := 0; w_video_choice := 0; w_thumb_choice := 0 |}
         "https://youtu.be/x" init_state) = Err ValueError.
Proof.
  apply (@request_ytdlp_metadata_bad_output ex_runtime); reflexivity.
Defined.

(** ** str.strip *)

Lemma find_existsb {A} (f : A -> bool) l : List.find f l = None <-> existsb f l = false.
Proof.
  induction l as [|x l IH]; simpl; [tauto|].
  destruct (f x); simpl; [split; discriminate | exact IH].
Qed.

Lemma prefix_nat_length w l : prefix_nat w l = true -> length w <= length l.
Proof.
  revert l. induction w as [|n w IH]; intros [|c l]; simpl; try lia; try discriminate.
  intros Hp. apply andb_true_iff in Hp as [_ Hp]. apply IH in Hp. lia.
Qed.

Lemma prefix_nat_app w l t : prefix_nat w l = true -> prefix_nat w (l ++ t) = true.
Proof.
  revert l. induction w as [|n w IH]; intros [|c l]; simpl; try discriminate; auto.
  intros Hp. apply andb_true_iff in Hp as [Hn Hp]. rewrite Hn. simpl. auto.
Qed.

Lemma strip_go_fix pats fuel l :
  existsb (fun w => prefix_nat w l) pats = false -> strip_go pats fuel l = l.
Proof.
  destruct fuel; simpl; auto. intros Hn. apply find_existsb in Hn. now rewrite Hn.
Qed.

Lemma strip_go_suffix pats fuel l : exists p, l = (p ++ strip_go pats fuel l)%list.
Proof.
  revert l. induction fuel as [|f IH]; intros l; simpl; [now exists []|].
  destruct (List.find (fun w => prefix_nat w l) pats) as [w|]; [|now exists []].
  destruct (IH (skipn (length w) l)) as [p Hp].
  exists (firstn (length w) l ++ p)%list.
  rewrite <- app_assoc, <- Hp. symmetry. apply firstn_skipn.
Qed.

(** With enough fuel, no pattern starts what is left. *)
Lemma strip_go_stop pats fuel l :
  Forall (fun w => w <> []) pats -> length l <= fuel ->
  existsb (fun w => prefix_nat w (strip_go pats fuel l)) pats = false.
Proof.
  intros Hne. rewrite List.Forall_forall in Hne.
  revert l. induction fuel as [|f IH]; intros l Hl; simpl.
  - destruct l; [|simpl in Hl; lia].
    destruct (existsb _ pats) eqn:E; [|reflexivity].
    apply existsb_exists in E as [w [Hw Hp]].
    destruct w; [now destruct (Hne [] Hw) | discriminate].
  - destruct (List.find (fun w => prefix_nat w l) pats) as [w|] eqn:Hf.
    + apply IH. apply find_some in Hf as [Hw Hp].
      apply prefix_nat_length in Hp. rewrite length_skipn.
      destruct w; [now destruct (Hne [] Hw)|]. simpl in *. lia.
    + now apply find_existsb.
Qed.

Lemma py_whitespace_nonempty : Forall (fun w => w <> []) py_whitespace.
Proof. repeat (constructor; [discriminate|]). constructor. Qed.

Lemma py_whitespace_rev_nonempty : Forall (fun w => w <> []) (map (@rev nat) py_whitespace).
Proof. simpl. repeat (constructor; [discriminate|]). constructor. Qed.

(** X: [str.strip] as used on the typed URL (line 253) and on format ids
    (line 103): its result neither starts nor ends with a character that
    [isspace()] accepts, and stripping twice is stripping once. *)
Theorem py_strip_trimmed s :
  starts_with_space (list_ascii_of_string (py_strip s)) = false /\
  ends_with_space (list_ascii_of_string (py_strip s)) = false /\
  py_strip (py_strip s) = py_strip s.
Proof.
  set (v := lstrip_bytes (list_ascii_of_string s)).
  assert (Hv : existsb (fun w => prefix_nat w v) py_whitespace = false).
  { apply strip_go_stop; [exact py_whitespace_nonempty | lia]. }
  set (u := strip_go (map (@rev nat) py_whitespace) (length v) (rev v)).
  assert (Hu : existsb (fun w => prefix_nat w u) (map (@rev nat) py_whitespace) = false).
  { apply strip_go_stop; [exact py_whitespace_rev_nonempty | rewrite length_rev; lia]. }
  destruct (strip_go_suffix (map (@rev nat) py_whitespace) (length v) (rev v)) as [p Hp].
  fold u in Hp.
  assert (Hs : py_strip s = string_of_list_ascii (rev u)) by reflexivity.
  assert (Hstart : starts_with_space (rev u) = false).
  { unfold starts_with_space.
    destruct (existsb (fun w => prefix_nat w (rev u)) py_whitespace) eqn:E;
      [exfalso|reflexivity].
    apply existsb_exists in E as [w [Hw Hpw]].
    apply (prefix_nat_app _ _ (rev p)) in Hpw.
    apply (f_equal (@rev ascii)) in Hp. rewrite rev_app_distr, rev_involutive in Hp.
    rewrite <- Hp in Hpw.
    assert (existsb (fun w => prefix_nat w v) py_whitespace = true)
      by (apply existsb_exists; eauto).
    congruence. }
  assert (Hend : ends_with_space (rev u) = false).
  { unfold ends_with_space. now rewrite rev_involutive. }
  rewrite Hs, list_ascii_of_string_of_list_ascii.
  split; [exact Hstart|]. split; [exact Hend|].
  unfold py_strip. rewrite list_ascii_of_string_of_list_ascii.
  unfold lstrip_bytes. rewrite (strip_go_fix _ _ _ Hstart).
  unfold rstrip_bytes. rewrite rev_involutive, (strip_go_fix _ _ _ Hu).
  reflexivity.
Qed.

(** ** Selectors: what the menus show and return *)

Lemma nth_error_result (o : list option_t) c :
  match nth_error o c with Some x => Ok x.2 | None => Err IndexError end =
  match nth_error (map snd o) c with Some v => Ok v | None => Err IndexError end.
Proof. rewrite nth_error_map. now destruct (nth_error o c). Qed.

Lemma find_default_none (opts : list option_t) d i :
  (forall v, In v (map snd opts) -> value_eq_str v d = false) ->
  find_default opts d i = None.
Proof.
  revert i. induction opts as [|o rest IH]; intros i Hv; simpl; [reflexivity|].
  rewrite (Hv o.2) by (now left). apply IH. intros v Hin. apply Hv. now right.
Qed.

Lemma default_index_unmatched (opts : list option_t) b d :
  (forall v, In v (map snd opts) -> value_eq_str v d = false) ->
  default_index opts b (Some d) = b.
Proof. intros Hv. unfold default_index. now rewrite find_default_none. Qed.

Lemma value_eq_str_ne v d : v <> VStr d -> value_eq_str v d = false.
Proof.
  destruct v; try reflexivity. simpl. intros Hne.
  destruct (String.eqb_spec s d) as [->|]; [now destruct Hne | reflexivity].
Qed.

Section SelectorValues.
Context `{PyRuntime}.

Lemma audio_upd_format_id h l0 l :
  heap_upd h l0 (audio_quantities (h l0)) l !! "format_id" = h l !! "format_id".
Proof.
  unfold heap_upd. destruct (Nat.eqb_spec l l0) as [->|]; [|reflexivity].
  apply audio_quantities_other_keys; discriminate.
Qed.

Lemma video_upd_format_id h l0 l x :
  heap_upd h l0 (<["wxh" := x]> (video_quantities (h l0))) l !! "format_id" = h l !! "format_id".
Proof.
  unfold heap_upd. destruct (Nat.eqb_spec l l0) as [->|]; [|reflexivity].
  rewrite lookup_insert_ne by discriminate.
  apply video_quantities_other_keys; discriminate.
Qed.

Lemma audio_options_values formats opts s :
  exists h' opts',
    audio_options formats opts s = ({| trace := trace s; hp := h' |}, Ok opts') /\
    map snd opts' = (map snd opts ++ map (fun l => dget (hp s l) "format_id" VNone) formats)%list.
Proof.
  revert opts s. induction formats as [|l rest IH]; intros opts s.
  - exists (hp s), opts. destruct s. simpl. now rewrite app_nil_r.
  - rewrite audio_options_cons.
    match goal with
    | |- context [audio_options rest ?o ?s'] => destruct (IH o s') as [h' [opts' [E Hm]]]
    end.
    exists h', opts'. rewrite E. split; [reflexivity|]. rewrite Hm.
    cbn [trace hp]. rewrite map_app, <- app_assoc. f_equal. simpl. f_equal.
    + unfold dget. rewrite audio_quantities_other_keys by discriminate. reflexivity.
    + apply map_ext. intros l'. unfold dget. now rewrite audio_upd_format_id.
Qed.

Lemma video_options_values formats opts s s' opts' :
  video_options formats opts s = (s', Ok opts') ->
  trace s' = trace s /\
  map snd opts' = (map snd opts ++ map (fun l => dget (hp s l) "format_id" VNone) formats)%list.
Proof.
  revert opts s. induction formats as [|l rest IH]; intros opts s E.
  - injection E as <- <-. split; [reflexivity|]. now rewrite app_nil_r.
  - rewrite video_options_cons in E.
    destruct (format_wxh (video_quantities (hp s l))) as [wxh|e]; [|discriminate].
    apply IH in E as [Et Hm]. split; [exact Et|]. rewrite Hm.
    cbn [hp]. rewrite map_app, <- app_assoc. f_equal. simpl. f_equal.
    + unfold dget. rewrite lookup_insert_ne by discriminate.
      rewrite video_quantities_other_keys by discriminate. reflexivity.
    + apply map_ext. intros l'. unfold dget. now rewrite video_upd_format_id.
Qed.

(** X: the audio selector shows one menu of 2 + n lines for n candidates
    and returns "bestaudio" for the first line, None for the second, and
    for line 2 + i the format_id of the i-th candidate as fetched; a
    choice past the last line raises IndexError. *)
Theorem pick_yt_audio_format_result formats default choice s :
  exists labels di,
    trace (fst (pick_yt_audio_format formats default choice s)) =
      (trace s ++ [Menu "Select audio" labels di])%list /\
    length labels = 2 + length formats /\
    snd (pick_yt_audio_format formats default choice s) =
      match nth_error (VStr "bestaudio" :: VNone ::
                       map (fun l => dget (hp s l) "format_id" VNone) formats) choice with
      | Some v => Ok v
      | None => Err IndexError
      end.
Proof.
  destruct (audio_options_values formats audio_sentinels s) as [h' [opts' [E Hm]]].
  unfold pick_yt_audio_format. rewrite bind_run, E, pick_run. cbn [fst snd trace].
  eexists _, _. split; [reflexivity|]. split.
  - rewrite length_map. apply (f_equal (@length value)) in Hm.
    rewrite length_map, length_app, !length_map in Hm. exact Hm.
  - rewrite nth_error_result, Hm. reflexivity.
Qed.

(** X: when every candidate has a "width" and a "height", the video
    selector shows one menu of 2 + n lines and returns "bestvideo" for the
    first line, None for the second, and for line 2 + i the format_id of the
    i-th candidate as fetched; a choice past the last line raises
    IndexError. *)
Theorem pick_yt_video_format_result formats default choice s :
  (forall l, In l formats -> hp s l !! "width" <> None /\ hp s l !! "height" <> None) ->
  exists labels di,
    trace (fst (pick_yt_video_format formats default choice s)) =
      (trace s ++ [Menu "Select video" labels di])%list /\
    length labels = 2 + length formats /\
    snd (pick_yt_video_format formats default choice s) =
      match nth_error (VStr "bestvideo" :: VNone ::
                       map (fun l => dget (hp s l) "format_id" VNone) formats) choice with
      | Some v => Ok v
      | None => Err IndexError
      end.
Proof.
  intros Hwh.
  pose proof (video_options_spec formats video_sentinels s) as Hs.
  destruct (video_options formats video_sentinels s) as [s1 [opts'|e]] eqn:E.
  - destruct (video_options_values _ _ _ _ _ E) as [Et Hm].
    unfold pick_yt_video_format. rewrite bind_run, E, pick_run. cbn [fst snd trace].
    eexists _, _. split; [now rewrite Et|]. split.
    + rewrite length_map. apply (f_equal (@length value)) in Hm.
      rewrite length_map, length_app, !length_map in Hm. exact Hm.
    + rewrite nth_error_result, Hm. reflexivity.
  - exfalso. destruct Hs as [_ [l [Hl Hm]]]. destruct (Hwh l Hl). tauto.
Qed.

(** X: with the shipped CONFIG (audio_format and video_format "best"), the
    default matches no line when no candidate's format_id is "best", as
    for the classifier's candidates: "best" is neither "bestaudio" nor
    "bestvideo".
    The audio menu and, whenever it is shown, the video menu open with the
    cursor on their first line. *)
Theorem selectors_default_best_unmatched formats choice s :
  (forall l, In l formats -> dget (hp s l) "format_id" VNone <> VStr "best") ->
  (exists labels,
     trace (fst (pick_yt_audio_format formats config_audio_format choice s)) =
       (trace s ++ [Menu "Select audio" labels 0])%list) /\
  (trace (fst (pick_yt_video_format formats config_video_format choice s)) = trace s \/
   exists labels,
     trace (fst (pick_yt_video_format formats config_video_format choice s)) =
       (trace s ++ [Menu "Select video" labels 0])%list).
Proof.
  intros Hok. unfold config_audio_format, config_video_format.
  assert (Hids : forall v, In v (map (fun l => dget (hp s l) "format_id" VNone) formats) ->
                           value_eq_str v "best" = false).
  { intros v Hv. apply in_map_iff in Hv as [l [<- Hl]].
    apply value_eq_str_ne, Hok, Hl. }
  split.
  - destruct (audio_options_values formats audio_sentinels s) as [h' [opts' [E Hm]]].
    unfold pick_yt_audio_format. rewrite bind_run, E, pick_run. cbn [fst trace].
    rewrite (default_index_unmatched opts' 0 "best"); [eauto|].
    rewrite Hm. intros v Hv. apply in_app_or in Hv as [Hv | Hv]; [|auto].
    destruct Hv as [<- | [<- | []]]; reflexivity.
  - unfold pick_yt_video_format. rewrite bind_run.
    destruct (video_options formats video_sentinels s) as [s1 [opts'|e]] eqn:E.
    + destruct (video_options_values _ _ _ _ _ E) as [Et Hm].
      rewrite pick_run. cbn [fst trace]. right.
      rewrite (default_index_unmatched opts' 0 "best").
      * rewrite Et. eauto.
      * rewrite Hm. intros v Hv. apply in_app_or in Hv as [Hv | Hv]; [|auto].
        destruct Hv as [<- | [<- | []]]; reflexivity.
    + left. cbn [fst]. revert E. clear. revert s s1 e. generalize video_sentinels.
      induction formats as [|l rest IH]; intros opts s s1 e E.
      * discriminate.
      * rewrite video_options_cons in E.
        destruct (format_wxh (video_quantities (hp s l))).
        -- apply IH in E. exact E.
        -- injection E as <- _. reflexivity.
Qed.

End SelectorValues.

(** X: the thumbnail selector shows its three lines with the cursor on the
    line whose value is the default ("best" 0, "embed" 1, otherwise the
    built-in 2, "no thumbnail"), leaves the heap alone, and returns
    "best" with --write-thumbnail --convert-thumbnails jpg, "embed" with
    --embed-thumbnail, or None with no flag; a choice past the third line
    raises IndexError. *)
Theorem pick_yt_thumbnail_format_result default choice s :
  pick_yt_thumbnail_format default choice s =
    ({| trace := (trace s ++
          [Menu "Select thumbnail" (map fst thumbnail_options)
             (match default with
              | Some d => if String.eqb d "best" then 0
                          else if String.eqb d "embed" then 1 else 2
              | None => 2
              end)])%list;
        hp := hp s |},
     match choice with
     | 0 => Ok (VStr "best", ["--write-thumbnail"; "--convert-thumbnails"; "jpg"])
     | 1 => Ok (VStr "embed", ["--embed-thumbnail"])
     | 2 => Ok (VNone, [])
     | _ => Err IndexError
     end).
Proof.
  unfold pick_yt_thumbnail_format. rewrite bind_run, pick_run.
  replace (default_index thumbnail_options 2 default) with
    (match default with
     | Some d => if String.eqb d "best" then 0 else if String.eqb d "embed" then 1 else 2
     | None => 2
     end).
  - destruct choice as [|[|[|[|c]]]]; reflexivity.
  - destruct default as [d|]; [|reflexivity].
    unfold default_index. cbn [find_default thumbnail_options value_eq_str snd].
    rewrite !(String.eqb_sym d).
    destruct (String.eqb "best" d); [reflexivity|].
    destruct (String.eqb "embed" d); reflexivity.
Qed.

Lemma pick_yt_video_format_result_witness :
  snd (@pick_yt_video_format ex_runtime [2] None 2 ex_state) = Ok (VStr "137").
Proof.
  destruct (@pick_yt_video_format_result ex_runtime [2] None 2 ex_state)
    as [labels [di [_ [_ Hr]]]].
  - intros l [<- | []]. split; vm_compute; discriminate.
  - rewrite Hr. reflexivity.
Defined.

Lemma selectors_default_best_unmatched_witness :
  exists labels,
    trace (fst (@pick_yt_audio_format ex_runtime [1] config_audio_format 0 ex_state)) =
      [Menu "Select audio" labels 0].
Proof.
  destruct (@selectors_default_best_unmatched ex_runtime [1] 0 ex_state) as [Ha _].
  - intros l [<- | []]. vm_compute. discriminate.
  - exact Ha.
Defined.

(** ** The predicted output path *)

Lemma with_suffix_shape p e p' :
  with_suffix p e = Ok p' ->
  let name := path_name p in
  p_root p' = p_root p /\
  removelast (p_parts p') = removelast (p_parts p) /\
  path_name p' = substring 0 (String.length name - String.length (name_suffix name)) name ++ e.
Proof.
  unfold with_suffix.
  destruct (existsb _ _); [discriminate|].
  destruct (_ || _); [discriminate|].
  destruct (String.eqb (path_name p) ""); [discriminate|].
  intros Hok. injection Hok as <-. cbn zeta. cbn [p_root p_parts].
  split; [reflexivity|]. split; [apply removelast_last|].
  unfold path_name at 1. cbn [p_parts]. rewrite last_snoc. simpl.
  destruct (String.eqb_spec (name_suffix (path_name p)) "") as [E|]; [|reflexivity].
  rewrite E. simpl. rewrite Nat.sub_0_r, substring_full. reflexivity.
Qed.

Lemma download_stage_ok w yturl a v th fp s s' p :
  download_stage w yturl a v th fp s = (s', Ok p) ->
  with_suffix fp (stage_ext (hp s) a v) = Ok p.
Proof.
  unfold download_stage, stage_ext. run_M.
  destruct (audio_only (hp s) a v);
    (destruct (with_suffix fp _) as [p0|e]; run_M; [|discriminate]);
    (destruct (format_expr (hp s) a v) as [f|e]; run_M; [|discriminate]);
    unfold ytdlp_download; destruct (w_launch w ytdlp_bin); run_M;
    try discriminate; intros [= _ ->]; reflexivity.
Qed.

(** X: the predicted output path is the probe's filename with only its
    last suffix replaced by .mp3 or .mp4: the same root and directories,
    the name's part before its suffix kept (the whole name when it has no
    suffix). *)
Theorem download_stage_predicted_path w yturl a v th fp s s' p :
  download_stage w yturl a v th fp s = (s', Ok p) ->
  let name := path_name fp in
  p_root p = p_root fp /\
  removelast (p_parts p) = removelast (p_parts fp) /\
  path_name p =
    substring 0 (String.length name - String.length (name_suffix name)) name ++
    stage_ext (hp s) a v.
Proof. intros E. exact (with_suffix_shape _ _ _ (download_stage_ok _ _ _ _ _ _ _ _ _ E)). Qed.

Lemma download_stage_predicted_path_witness :
  path_name (Path "videos/clip.v2.mp4") =
    substring 0 (String.length "clip.v2.webm" - String.length (name_suffix "clip.v2.webm"))
      "clip.v2.webm" ++ ".mp4".
Proof.
  destruct (download_stage_predicted_path (ex_world 2 2 0) "https://youtu.be/x"
              (VStr "140") (VStr "137") (VNone, []) (Path "videos/clip.v2.webm") ex_state
              (fst (download_stage (ex_world 2 2 0) "https://youtu.be/x"
                      (VStr "140") (VStr "137") (VNone, []) (Path "videos/clip.v2.webm") ex_state))
              (Path "videos/clip.v2.mp4")) as [_ [_ Hn]].
  - vm_compute. reflexivity.
  - exact Hn.
Defined.

(** X: when the probe's filename has an empty name (as "", "." or "/"
    do), the download stage raises ValueError before printing or spawning
    anything: yt-dlp is not started. *)
Theorem download_stage_empty_name w yturl a v th fp s :
  path_name fp = "" ->
  download_stage w yturl a v th fp s = (s, Err ValueError).
Proof.
  intros Hn. unfold download_stage. run_M.
  destruct (audio_only (hp s) a v); unfold with_suffix; cbn; rewrite Hn; cbn;
    destruct s; reflexivity.
Qed.

Lemma download_stage_empty_name_witness :
  download_stage (ex_world 2 2 0) "https://youtu.be/x" (VStr "140") VNone (VNone, [])
    (Path "/") ex_state = (ex_state, Err ValueError).
Proof. apply download_stage_empty_name. reflexivity. Defined.

(** ** main: early exits and announced processes *)

Lemma check_dependency_missing w p msg s :
  has_nul p = false ->
  w_launch w p = Some FileNotFoundError ->
  check_dependency_path w p msg s =
    ({| trace := (trace s ++ [Echo (Style_DIM ++ "$ " ++ String.concat " " [p]);
                              Echo msg])%list;
        hp := hp s |}, Ok false).
Proof.
  intros Hnul Hf. unfold check_dependency_path, run_command. simpl hd.
  simpl existsb. rewrite Hnul, orb_false_r, Hf.
  run_M. now rewrite <- app_assoc.
Qed.

Lemma check_dependency_other w p msg s e :
  has_nul p = false ->
  e <> FileNotFoundError ->
  w_launch w p = Some e ->
  check_dependency_path w p msg s =
    ({| trace := (trace s ++ [Echo (Style_DIM ++ "$ " ++ String.concat " " [p])])%list;
        hp := hp s |}, Err e).
Proof.
  intros Hnul Hne Hf. unfold check_dependency_path, run_command. simpl hd.
  simpl existsb. rewrite Hnul, orb_false_r, Hf. run_M.
  destruct e; try reflexivity. contradiction.
Qed.

Section MainExits.
Context `{PyRuntime}.

(** X: when the output directory does not exist, main prints the red
    "output directory not found: [edit line 64 to change it]" line and the
    directory, and returns: it changes no directory and starts no
    process. *)
Theorem main_missing_outdir w s :
  w_exists w (main_outdir w) = Ok false ->
  main w s =
    ({| trace := (trace s ++
          [Echo (Fore_RED ++ "output directory not found: [edit line 64 to change it]");
           Echo (main_outdir w)])%list;
        hp := hp s |}, Ok tt).
Proof.
  intros Hex. unfold main. cbv zeta. fold (main_outdir w). rewrite Hex. run_M.
  cbv [emit]; cbn [trace hp]; rewrite <- ?app_assoc; reflexivity.
Qed.

(** X: once the output directory exists and is entered, ffmpeg failing to
    start with FileNotFoundError makes main print "ffmpeg not found" and
    return before asking for the URL; when ffmpeg starts but yt-dlp fails
    with FileNotFoundError, main prints "yt-dlp not found" and returns
    likewise.  Any other failure to start either binary (PermissionError
    for a file that is not executable, for one) is not caught by
    check_dependency_path: main raises it. *)
Theorem main_missing_dependency w cwd s :
  w_exists w (main_outdir w) = Ok true ->
  w_chdir w (main_outdir w) = Ok cwd ->
  (w_launch w ffmpeg_bin = Some FileNotFoundError ->
   main w s =
     ({| trace := (trace s ++
           [Echo (Style_DIM ++ "$ " ++ String.concat " " ["cd"; main_outdir w]);
            Chdir (main_outdir w);
            Echo (Style_DIM ++ "$ " ++ String.concat " " [ffmpeg_bin]);
            Echo "ffmpeg not found"])%list;
         hp := hp s |}, Ok tt)) /\
  (w_launch w ffmpeg_bin = None -> w_launch w ytdlp_bin = Some FileNotFoundError ->
   main w s =
     ({| trace := (trace s ++
           [Echo (Style_DIM ++ "$ " ++ String.concat " " ["cd"; main_outdir w]);
            Chdir (main_outdir w);
            Echo (Style_DIM ++ "$ " ++ String.concat " " [ffmpeg_bin]);
            Spawn [ffmpeg_bin];
            Echo (Style_DIM ++ "$ " ++ String.concat " " [ytdlp_bin]);
            Echo "yt-dlp not found"])%list;
         hp := hp s |}, Ok tt)) /\
  (forall e, e <> FileNotFoundError -> w_launch w ffmpeg_bin = Some e ->
   main w s =
     ({| trace := (trace s ++
           [Echo (Style_DIM ++ "$ " ++ String.concat " " ["cd"; main_outdir w]);
            Chdir (main_outdir w);
            Echo (Style_DIM ++ "$ " ++ String.concat " " [ffmpeg_bin])])%list;
         hp := hp s |}, Err e)) /\
  (forall e, e <> FileNotFoundError ->
   w_launch w ffmpeg_bin = None -> w_launch w ytdlp_bin = Some e ->
   main w s =
     ({| trace := (trace s ++
           [Echo (Style_DIM ++ "$ " ++ String.concat " " ["cd"; main_outdir w]);
            Chdir (main_outdir w);
            Echo (Style_DIM ++ "$ " ++ String.concat " " [ffmpeg_bin]);
            Spawn [ffmpeg_bin];
            Echo (Style_DIM ++ "$ " ++ String.concat " " [ytdlp_bin])])%list;
         hp := hp s |}, Err e)).
Proof.
  intros Hex Hcd.
  repeat match goal with |- _ /\ _ => split end;
    unfold main; cbv zeta; fold (main_outdir w); rewrite Hex; run_M; rewrite Hcd; run_M.
  - intros Hff. rewrite (check_dependency_missing w ffmpeg_bin _ _ eq_refl Hff). run_M.
    cbv [emit]; cbn [trace hp]; rewrite <- ?app_assoc; reflexivity.
  - intros Hff Hyt. rewrite (check_dependency_found w ffmpeg_bin _ _ eq_refl Hff). run_M.
    rewrite (check_dependency_missing w ytdlp_bin _ _ eq_refl Hyt). run_M.
    cbv [emit]; cbn [trace hp]; rewrite <- ?app_assoc; reflexivity.
  - intros e Hne Hff. rewrite (check_dependency_other w ffmpeg_bin _ _ e eq_refl Hne Hff).
    run_M. rewrite <- ?app_assoc; reflexivity.
  - intros e Hne Hff Hyt. rewrite (check_dependency_found w ffmpeg_bin _ _ eq_refl Hff). run_M.
    rewrite (check_dependency_other w ytdlp_bin _ _ e eq_refl Hne Hyt). run_M.
    rewrite <- ?app_assoc; reflexivity.
Qed.

End MainExits.

Lemma main_missing_outdir_witness :
  snd (@main ex_runtime {| w_home := "/home/user"; w_cwd := "/home/user";
                           w_exists := fun _ => Ok false; w_chdir := fun d => Ok d;
                           w_launch := fun _ => None; w_stdin := [];
                           w_probe := {| returncode := 0; stdout := ""; stderr := "" |};
                           w_audio_choice := 0; w_video_choice := 0; w_thumb_choice := 0 |}
         init_state) = Ok tt.
Proof. rewrite (@main_missing_outdir ex_runtime); reflexivity. Defined.

(** ffmpeg is absent and yt-dlp is a file without execute permission. *)
Definition dependency_world : world := {|
  w_home := "/home/user"; w_cwd := "/home/user";
  w_exists := fun _ => Ok true; w_chdir := fun d => Ok d;
  w_launch := fun b => if String.eqb b "yt-dlp" then Some PermissionError
                       else Some FileNotFoundError;
  w_stdin := [];
  w_probe := {| returncode := 0; stdout := ""; stderr := "" |};
  w_audio_choice := 0; w_video_choice := 0; w_thumb_choice := 0 |}.

Lemma main_missing_dependency_witness :
  snd (@main ex_runtime dependency_world init_state) = Ok tt /\
  snd (@main ex_runtime {| w_home := "/home/user"; w_cwd := "/home/user";
                           w_exists := fun _ => Ok true; w_chdir := fun d => Ok d;
                           w_launch := fun _ => Some PermissionError;
                           w_stdin := [];
                           w_probe := {| returncode := 0; stdout := ""; stderr := "" |};
                           w_audio_choice := 0; w_video_choice := 0; w_thumb_choice := 0 |}
         init_state) = Err PermissionError.
Proof.
  split.
  - destruct (@main_missing_dependency ex_runtime dependency_world "/home/user/Downloads"
                init_state) as [Hf _]; [reflexivity | reflexivity |].
    rewrite Hf by reflexivity. reflexivity.
  - destruct (@main_missing_dependency ex_runtime
                {| w_home := "/home/user"; w_cwd := "/home/user";
                   w_exists := fun _ => Ok true; w_chdir := fun d => Ok d;
                   w_launch := fun _ => Some PermissionError;
                   w_stdin := [];
                   w_probe := {| returncode := 0; stdout := ""; stderr := "" |};
                   w_audio_choice := 0; w_video_choice := 0; w_thumb_choice := 0 |}
                "/home/user/Downloads" init_state) as [_ [_ [He _]]];
      [reflexivity | reflexivity |].
    rewrite (He PermissionError) by (reflexivity || discriminate). reflexivity.
Defined.

Lemma last_default_irrelevant {A} (x : A) l d d' :
  List.last (x :: l) d = List.last (x :: l) d'.
Proof. revert x. induction l as [|y l IH]; intros x; [reflexivity|]. apply IH. Qed.

Lemma last_some_cons (e : event) t d :
  List.last (map Some (e :: t)) d = List.last (map Some t) (Some e).
Proof.
  destruct t as [|e' t]; [reflexivity|].
  change (List.last (Some e :: Some e' :: map Some t) d)
    with (List.last (Some e' :: map Some t) d).
  exact (last_default_irrelevant (Some e') (map Some t) d (Some e)).
Qed.

Lemma announced_app p t u :
  announced_after p (t ++ u) <->
  announced_after p t /\ announced_after (List.last (map Some t) p) u.
Proof.
  revert p. induction t as [|e t IH]; intros p.
  - simpl. tauto.
  - rewrite <- app_comm_cons. cbn [announced_after]. rewrite IH, last_some_cons. tauto.
Qed.

Lemma announced_snoc_echo t x :
  announced t -> announced (t ++ [Echo x]).
Proof.
  intros Ht. unfold announced. apply announced_app. split; [exact Ht|].
  simpl. split; [intros c E; discriminate | exact I].
Qed.

Lemma keeps_bind {A B} (m : M A) (f : A -> M B) :
  keeps_announced m -> (forall a, keeps_announced (f a)) -> keeps_announced (m ≫= f).
Proof.
  intros Hm Hf s Hs. rewrite bind_run. specialize (Hm s Hs).
  destruct (m s) as [s' [a|e]]; simpl in *; auto. now apply Hf.
Qed.

Lemma keeps_ret {A} (a : A) : keeps_announced (mret a : M A).
Proof. intros s Hs. exact Hs. Qed.

Lemma keeps_raise {A} e : keeps_announced (raise e : M A).
Proof. intros s Hs. exact Hs. Qed.

Lemma keeps_lift {A} (r : result A) : keeps_announced (lift r).
Proof. intros s Hs. exact Hs. Qed.

Lemma keeps_get_heap : keeps_announced get_heap.
Proof. intros s Hs. exact Hs. Qed.

Lemma keeps_put_heap h : keeps_announced (put_heap h).
Proof. intros s Hs. exact Hs. Qed.

Lemma keeps_emit e : (forall c, e <> Spawn c) -> keeps_announced (emit e).
Proof.
  intros He s Hs. unfold emit. cbn [trace fst]. unfold announced.
  apply announced_app. split; [exact Hs|]. simpl. split; [|exact I].
  intros c E. exfalso. exact (He c E).
Qed.

Lemma keeps_print_command c : keeps_announced (print_command c).
Proof. apply keeps_emit. intros c' E. discriminate. Qed.

Lemma spawn_after_echo t c :
  announced t ->
  announced ((t ++ [Echo (Style_DIM ++ "$ " ++ String.concat " " c)]) ++ [Spawn c]).
Proof.
  intros Ht. unfold announced. apply announced_app. split.
  - now apply announced_snoc_echo.
  - rewrite map_app. simpl. rewrite List.last_last. split; [|exact I].
    intros c' E. injection E as <-. reflexivity.
Qed.

Lemma keeps_run_command w c : keeps_announced (run_command w c).
Proof.
  intros s Hs. unfold run_command. run_M.
  destruct (existsb has_nul c); run_M; [now apply announced_snoc_echo|].
  destruct (w_launch w (hd "" c)); run_M.
  - now apply announced_snoc_echo.
  - unfold emit. cbn [trace fst]. now apply spawn_after_echo.
Qed.

Lemma keeps_ytdlp_download w yturl f args : keeps_announced (ytdlp_download w yturl f args).
Proof.
  intros s Hs. unfold ytdlp_download. run_M.
  destruct (w_launch w ytdlp_bin); run_M.
  - now apply announced_snoc_echo.
  - unfold emit. cbn [trace fst]. now apply spawn_after_echo.
Qed.

Lemma keeps_py_input w k p : keeps_announced (py_input w k p).
Proof.
  unfold py_input. apply keeps_bind; [apply keeps_emit; discriminate|].
  intros _. destruct (nth_error (w_stdin w) k); [apply keeps_ret | apply keeps_raise].
Qed.

Lemma keeps_check_dependency_path w p msg : keeps_announced (check_dependency_path w p msg).
Proof.
  intros s Hs. unfold check_dependency_path.
  pose proof (keeps_run_command w [p] s Hs) as Hr.
  destruct (run_command w [p] s) as [s' [u|[]]]; simpl in *; auto.
  now apply announced_snoc_echo.
Qed.

Lemma keeps_pick t o di c : keeps_announced (pick t o di c).
Proof.
  unfold pick. apply keeps_bind; [apply keeps_emit; discriminate|].
  intros _. destruct (nth_error o c); [apply keeps_ret | apply keeps_raise].
Qed.

Ltac solve_keeps :=
  repeat match goal with
  | |- keeps_announced (mbind _ _) => apply keeps_bind; [|intros ?]
  | |- keeps_announced (mret _) => apply keeps_ret
  | |- keeps_announced (raise _) => apply keeps_raise
  | |- keeps_announced (lift _) => apply keeps_lift
  | |- keeps_announced get_heap => apply keeps_get_heap
  | |- keeps_announced (put_heap _) => apply keeps_put_heap
  | |- keeps_announced (emit _) => apply keeps_emit; discriminate
  | |- keeps_announced (print_command _) => apply keeps_print_command
  | |- keeps_announced (run_command _ _) => apply keeps_run_command
  | |- keeps_announced (ytdlp_download _ _ _ _) => apply keeps_ytdlp_download
  | |- keeps_announced (check_dependency_path _ _ _) => apply keeps_check_dependency_path
  | |- keeps_announced (pick _ _ _ _) => apply keeps_pick
  | |- keeps_announced (py_input _ _ _) => apply keeps_py_input
  | |- keeps_announced (if ?b then _ else _) => destruct b
  | |- keeps_announced (match ?x with _ => _ end) => destruct x
  end.

Section Announced.
Context `{PyRuntime}.

Lemma keeps_audio_options formats opts : keeps_announced (audio_options formats opts).
Proof.
  revert opts. induction formats as [|l rest IH]; intros opts; cbn [audio_options].
  - apply keeps_ret.
  - cbv zeta. solve_keeps. apply IH.
Qed.

Lemma keeps_video_options formats opts : keeps_announced (video_options formats opts).
Proof.
  revert opts. induction formats as [|l rest IH]; intros opts; cbn [video_options].
  - apply keeps_ret.
  - cbv zeta. solve_keeps. apply IH.
Qed.

Lemma keeps_main w : keeps_announced (main w).
Proof.
  unfold main, request_ytdlp_metadata, pick_yt_audio_format, pick_yt_video_format,
    pick_yt_thumbnail_format, download_stage.
  cbv zeta. solve_keeps; first [apply keeps_audio_options | apply keeps_video_options].
Qed.

(** X: in every run of main, each process the script starts (the dependency
    checks, the probe, the download) is started right after the dimmed
    "$ command" line that echoes exactly its command line. *)
Theorem main_spawns_announced w s :
  announced (trace s) -> announced (trace (fst (main w s))).
Proof. apply keeps_main. Qed.

End Announced.

Lemma main_spawns_announced_witness :
  announced (trace (fst (@main ex_runtime (ex_world 2 2 2) init_state))).
Proof. apply (@main_spawns_announced ex_runtime). exact I. Defined.


(** ** ffmpeg_remux *)

Lemma name_suffix_length n : String.length (name_suffix n) <= String.length n.
Proof.
  unfold name_suffix. destruct (rfind n DOT) as [i|]; [|simpl; lia].
  destruct ((0 <? i) && (i <? String.length n - 1)) eqn:Hi; [|simpl; lia].
  apply andb_true_iff in Hi as [_ H1]. apply Nat.ltb_lt in H1.
  rewrite substring_length by lia. lia.
Qed.

Lemma stem_length n :
  String.length (substring 0 (String.length n - String.length (name_suffix n)) n) =
  String.length n - String.length (name_suffix n).
Proof. apply substring_length. lia. Qed.

(** X: ffmpeg_remux writes next to its input: the output keeps the input's
    root and directories, its name is the input's stem, ".remux" and the
    input's suffix ("clip.mp4" gives "clip.remux.mp4"), so it is never the
    input file itself; ffmpeg is run as
    [ffmpeg -i <input> -c copy -c:a aac <output>] on the resolved paths. *)
Theorem ffmpeg_remux_output w resolve file s s' out :
  ffmpeg_remux w resolve file s = (s', Ok out) ->
  let name := path_name file in
  let x := name_suffix name in
  p_root out = p_root file /\
  removelast (p_parts out) = removelast (p_parts file) /\
  path_name out = substring 0 (String.length name - String.length x) name ++ ".remux" ++ x /\
  path_name out <> path_name file /\
  trace s' = (trace s ++
    [Echo (Style_DIM ++ "$ " ++ String.concat " "
             [ffmpeg_bin; "-i"; resolve file; "-c"; "copy"; "-c:a"; "aac"; resolve out]);
     Spawn [ffmpeg_bin; "-i"; resolve file; "-c"; "copy"; "-c:a"; "aac"; resolve out]])%list.
Proof.
  unfold ffmpeg_remux. run_M.
  destruct (with_suffix file _) as [o|e] eqn:Hw; run_M; [|discriminate].
  destruct (w_launch w ffmpeg_bin); run_M; [discriminate|].
  unfold emit. cbn [trace hp fst]. rewrite ?ret_run. intros [= <- <-]. cbv zeta.
  destruct (with_suffix_shape _ _ _ Hw) as [Hr [Hp Hn]].
  split; [exact Hr|]. split; [exact Hp|]. split; [exact Hn|]. split.
  - intros E. apply (f_equal String.length) in E. rewrite Hn in E.
    rewrite !string_length_app, stem_length in E. simpl in E.
    pose proof (name_suffix_length (path_name file)). lia.
  - rewrite <- app_assoc. reflexivity.
Qed.

Lemma ffmpeg_remux_output_witness :
  path_name (Path "videos/clip.remux.mp4") <> path_name (Path "videos/clip.mp4").
Proof.
  destruct (ffmpeg_remux_output (ex_world 0 0 0) path_str (Path "videos/clip.mp4")
              init_state
              (fst (ffmpeg_remux (ex_world 0 0 0) path_str (Path "videos/clip.mp4") init_state))
              (Path "videos/clip.remux.mp4")) as [_ [_ [_ [Hne _]]]].
  - vm_compute. reflexivity.
  - exact Hne.
Defined.

Section MainFilename.
Context `{PyRuntime}.

Lemma request_success w yturl s h md r :
  w_launch w ytdlp_bin = None -> has_nul yturl = false -> returncode (w_probe w) = 0%Z ->
  json_loads (stdout (w_probe w)) = Some (h, md) -> classify h md = Ok r ->
  request_ytdlp_metadata w yturl s =
    ({| trace := (trace s ++
          [Echo (Style_DIM ++ "$ " ++ String.concat " " [ytdlp_bin; "-j"; yturl]);
           Spawn [ytdlp_bin; "-j"; yturl]])%list;
        hp := h |}, Ok r).
Proof.
  intros Hf Hnul Hrc Hj Hc. unfold request_ytdlp_metadata, run_command. simpl hd.
  simpl existsb. rewrite Hnul, Hf, Hrc. run_M. rewrite Hj. run_M. rewrite Hc.
  rewrite <- ?app_assoc. reflexivity.
Qed.

(** X: in a run that enters the output directory, finds both binaries and
    reads a URL line, when the decoded metadata has no str "filename"
    (missing, null or another type), [Path(filename)] raises TypeError
    right after the probe: no menu is shown and no download is started. *)
Theorem main_filename_not_str w cwd line s h md r :
  w_exists w (main_outdir w) = Ok true ->
  w_chdir w (main_outdir w) = Ok cwd ->
  w_launch w ffmpeg_bin = None -> w_launch w ytdlp_bin = None ->
  nth_error (w_stdin w) 0 = Some line ->
  has_nul (py_strip line) = false ->
  returncode (w_probe w) = 0%Z ->
  json_loads (stdout (w_probe w)) = Some (h, md) -> classify h md = Ok r ->
  (forall f, dget (h (c_metadata r)) "filename" VNone <> VStr f) ->
  main w s =
    ({| trace := (trace s ++
          [Echo (Style_DIM ++ "$ " ++ String.concat " " ["cd"; main_outdir w]);
           Chdir (main_outdir w);
           Echo (Style_DIM ++ "$ " ++ String.concat " " [ffmpeg_bin]);
           Spawn [ffmpeg_bin];
           Echo (Style_DIM ++ "$ " ++ String.concat " " [ytdlp_bin]);
           Spawn [ytdlp_bin];
           Prompt "YouTube URL: ";
           Echo (Style_DIM ++ "$ " ++
                 String.concat " " [ytdlp_bin; "-j"; py_strip line]);
           Spawn [ytdlp_bin; "-j"; py_strip line]])%list;
        hp := h |}, Err TypeError).
Proof.
  intros Hex Hcd Hff Hyt Hline Hnul Hrc Hj Hc Hfn. unfold main. cbv zeta.
  fold (main_outdir w). rewrite Hex. run_M. rewrite Hcd. run_M.
  rewrite (check_dependency_found w ffmpeg_bin _ _ eq_refl Hff). run_M.
  rewrite (check_dependency_found w ytdlp_bin _ _ eq_refl Hyt). run_M.
  unfold py_input. run_M. rewrite Hline. run_M.
  rewrite (request_success _ _ _ _ _ _ Hyt Hnul Hrc Hj Hc). run_M.
  unfold probe_filename.
  destruct (dget (h (c_metadata r)) "filename" VNone) eqn:Ef;
    try (exfalso; eapply Hfn; reflexivity);
    cbn [py_Path]; run_M; rewrite <- ?app_assoc; reflexivity.
Qed.

End MainFilename.

(** The probe of [ex_world] without its "filename". *)
Lemma main_filename_not_str_witness :
  snd (@main {| float_of_str := fun _ => None; str_other := fun _ => "";
                json_loads := fun _ => Some (heap_upd ex_heap 0 (delete "filename" (ex_heap 0)),
                                             VDict 0);
                str_isdigit := ascii_isdigit |}
         (ex_world 2 2 2) init_state) = Err TypeError.
Proof.
  rewrite (main_filename_not_str (ex_world 2 2 2) "/home/user/Downloads"
             "https://youtu.be/x " init_state
             (heap_upd ex_heap 0 (delete "filename" (ex_heap 0))) (VDict 0) ex_classified);
    try reflexivity.
  intros f. vm_compute. discriminate.
Defined.

(** ** What the selectors leave in the shared format dicts *)

Section DisplayValues.
Context `{PyRuntime}.

Lemma get_quantity_form n m i :
  (exists q, get_quantity n m (Some i) = VQty q m) \/ get_quantity n m (Some i) = VStr i.
Proof. unfold get_quantity. destruct (py_float n); eauto. Qed.

Lemma get_quantity_form_none n m : exists q, get_quantity n m None = VQty q m.
Proof. unfold get_quantity. destruct (py_float n); eauto. Qed.

Lemma audio_quantities_form d :
  (exists v, audio_quantities d !! "filesize" = Some v /\
             ((exists q, v = VQty q "B") \/ v = VStr "N/A")) /\
  (exists v, audio_quantities d !! "abr" = Some v /\
             ((exists q, v = VQty q "") \/ v = VStr "N/A")) /\
  (exists q, audio_quantities d !! "asr" = Some (VQty q "Hz")).
Proof.
  destruct (audio_quantities_lookup d) as (Af & Ab & As).
  rewrite Af, Ab, As.
  destruct (get_quantity_form (dget d "filesize" VNone) "B" "N/A") as [[q1 E1] | E1];
  destruct (get_quantity_form (dget d "abr" VNone) "" "N/A") as [[q2 E2] | E2];
  destruct (get_quantity_form_none (dget d "asr" VNone) "Hz") as [q3 E3];
  rewrite ?E1, ?E2, E3.
  all: repeat match goal with |- _ /\ _ => split end.
  all: eauto 7.
Qed.

Lemma video_quantities_form d wxh :
  let v := <["wxh" := VStr wxh]> (video_quantities d) in
  (exists x, v !! "filesize" = Some x /\ ((exists q, x = VQty q "B") \/ x = VStr "N/A")) /\
  (exists q, v !! "vbr" = Some (VQty q "")) /\
  v !! "wxh" = Some (VStr wxh).
Proof.
  cbv zeta. destruct (video_line_lookup d wxh) as (Vf & Vb & _). cbv zeta in Vf, Vb.
  rewrite Vf, Vb, lookup_insert_eq.
  destruct (get_quantity_form (dget d "filesize" VNone) "B" "N/A") as [[q1 E1] | E1];
  destruct (get_quantity_form_none (dget d "vbr" VNone) "") as [q2 E2];
  rewrite ?E1, E2.
  all: repeat match goal with |- _ /\ _ => split end.
  all: eauto 7.
Qed.

Lemma audio_options_form formats opts s l :
  In l formats ->
  let d := hp (fst (audio_options formats opts s)) l in
  (exists v, d !! "filesize" = Some v /\ ((exists q, v = VQty q "B") \/ v = VStr "N/A")) /\
  (exists v, d !! "abr" = Some v /\ ((exists q, v = VQty q "") \/ v = VStr "N/A")) /\
  (exists q, d !! "asr" = Some (VQty q "Hz")).
Proof.
  revert opts s. induction formats as [|l0 rest IH]; intros opts s Hl; [destruct Hl|].
  rewrite audio_options_cons.
  destruct (in_dec Nat.eq_dec l rest) as [Hr | Hr]; [now apply IH|].
  destruct Hl as [-> | Hl]; [|contradiction].
  match goal with
  | |- context [audio_options rest ?o ?s'] =>
      destruct (audio_options_frame rest o s') as [F _]
  end.
  cbv zeta in F |- *. rewrite (F l Hr). cbn [hp]. unfold heap_upd.
  rewrite Nat.eqb_refl. apply audio_quantities_form.
Qed.

Lemma video_options_form formats opts s s' opts' l :
  video_options formats opts s = (s', Ok opts') -> In l formats ->
  (exists x, hp s' l !! "filesize" = Some x /\ ((exists q, x = VQty q "B") \/ x = VStr "N/A")) /\
  (exists q, hp s' l !! "vbr" = Some (VQty q "")) /\
  (exists wxh, hp s' l !! "wxh" = Some (VStr wxh)).
Proof.
  revert opts s. induction formats as [|l0 rest IH]; intros opts s E Hl; [destruct Hl|].
  rewrite video_options_cons in E.
  destruct (format_wxh (video_quantities (hp s l0))) as [wxh|e]; [|discriminate].
  destruct (in_dec Nat.eq_dec l rest) as [Hr | Hr]; [eapply IH; eauto|].
  destruct Hl as [-> | Hl]; [|contradiction].
  destruct (video_options_frame rest
              (opts ++ [(video_text (<["wxh" := VStr wxh]> (video_quantities (hp s l))),
                         dget (<["wxh" := VStr wxh]> (video_quantities (hp s l))) "format_id" VNone)])%list
              {| trace := trace s;
                 hp := heap_upd (hp s) l (<["wxh" := VStr wxh]> (video_quantities (hp s l))) |})
    as [F _].
  cbv zeta in F. rewrite E in F. cbn [fst hp] in F. rewrite (F l Hr).
  unfold heap_upd. rewrite Nat.eqb_refl.
  destruct (video_quantities_form (hp s l) wxh) as (Hf & Hv & Hw). eauto.
Qed.

(** X: after the audio selector, the dict of every audio candidate, shared
    with the probe metadata, holds in "filesize" a Quantity in B or the
    string "N/A", in "abr" a unitless Quantity or "N/A", and in "asr" always
    a Quantity in Hz; after a video selector that shows its menu, every
    video candidate holds in "filesize" a Quantity in B or "N/A", in "vbr"
    always a unitless Quantity, and in "wxh" a str. *)
Theorem selectors_display_values formats default choice s :
  (forall l, In l formats ->
   let d := hp (fst (pick_yt_audio_format formats default choice s)) l in
   (exists v, d !! "filesize" = Some v /\ ((exists q, v = VQty q "B") \/ v = VStr "N/A")) /\
   (exists v, d !! "abr" = Some v /\ ((exists q, v = VQty q "") \/ v = VStr "N/A")) /\
   (exists q, d !! "asr" = Some (VQty q "Hz"))) /\
  (forall s' r l, pick_yt_video_format formats default choice s = (s', r) ->
   (forall k, r <> Err (KeyError k)) -> In l formats ->
   (exists x, hp s' l !! "filesize" = Some x /\ ((exists q, x = VQty q "B") \/ x = VStr "N/A")) /\
   (exists q, hp s' l !! "vbr" = Some (VQty q "")) /\
   (exists wxh, hp s' l !! "wxh" = Some (VStr wxh))).
Proof.
  split.
  - intros l Hl. unfold pick_yt_audio_format. cbv zeta.
    rewrite (bind_heap _ _ _ (fun a s' => ltac:(now rewrite pick_run))).
    exact (audio_options_form formats audio_sentinels s l Hl).
  - intros s' r l E Hr Hl. unfold pick_yt_video_format in E. rewrite bind_run in E.
    pose proof (video_options_spec formats video_sentinels s) as Hs.
    destruct (video_options formats video_sentinels s) as [s1 [opts|e]] eqn:Ev.
    + rewrite pick_run in E. injection E as <- _. cbn [hp].
      exact (video_options_form _ _ _ _ _ _ Ev Hl).
    + injection E as <- <-. destruct Hs as [[-> | ->] _]; exfalso; eapply Hr; reflexivity.
Qed.

End DisplayValues.

Lemma selectors_display_values_witness :
  exists q, hp (fst (@pick_yt_audio_format ex_runtime [1] None 0 ex_state)) 1 !! "asr"
              = Some (VQty q "Hz").
Proof.
  destruct (@selectors_display_values ex_runtime [1] None 0 ex_state) as [Ha _].
  destruct (Ha 1) as (_ & _ & Hs); [now left|]. exact Hs.
Defined.
